(** * scripts/generate_llm_tags.py: front matter splitting, tag parsing, rewriting

    A shallow embedding of the tag generation script.  Python [str] values are
    [string]s (one [ascii] per character, so offsets count characters as
    Python does for texts of code points below 256), the file system is a
    finite map from paths to the text [f.read()] returns, the front matter
    mapping is an association list in insertion order (a Python [dict]), and
    the script's effects (reads, writes, the model call, log lines,
    [sys.exit], uncaught exceptions) are threaded through a small
    state-and-exit monad.  Failures of the operating system on an existing
    file and of the client's constructor are not modelled. *)

From Stdlib Require Import String Ascii ZArith List Bool Lia.
From stdpp Require Import base gmap strings pretty.
Import ListNotations.
Local Open Scope string_scope.
Local Open Scope list_scope.

(** ** Python strings *)

Module PyStr.

Definition LF : ascii := "010"%char.
Definition DQUOTE : ascii := "034"%char.
Definition SQUOTE : ascii := "039"%char.
Definition COMMA : ascii := "044"%char.

(** Python source literals written with the two-character escape
    backslash-n; [lit] turns each escape into a line feed. *)
Fixpoint lit (s : string) : string :=
  match s with
  | String "\" (String "n" s') => String LF (lit s')
  | String c s' => String c (lit s')
  | EmptyString => EmptyString
  end.

(** [s[n:]] *)
Fixpoint drop (n : nat) (s : string) : string :=
  match n, s with
  | O, _ => s
  | S n', String _ s' => drop n' s'
  | S _, EmptyString => EmptyString
  end.

(** [s[:n]] *)
Fixpoint take (n : nat) (s : string) : string :=
  match n, s with
  | S n', String c s' => String c (take n' s')
  | _, _ => EmptyString
  end.

(** [c.isspace()] for code points below 256. *)
Definition isspace (c : ascii) : bool :=
  let n := nat_of_ascii c in
  (Nat.leb 9 n && Nat.leb n 13) || (Nat.leb 28 n && Nat.leb n 32)
  || Nat.eqb n 133 || Nat.eqb n 160.

(** [s.lstrip()] *)
Fixpoint lstrip (s : string) : string :=
  match s with
  | String c s' => if isspace c then lstrip s' else s
  | EmptyString => EmptyString
  end.

(** [s.rstrip()] *)
Fixpoint rstrip (s : string) : string :=
  match s with
  | String c s' =>
      match rstrip s' with
      | EmptyString => if isspace c then EmptyString else String c EmptyString
      | r => String c r
      end
  | EmptyString => EmptyString
  end.

(** [s.strip()] *)
Definition strip (s : string) : string := rstrip (lstrip s).

(** [s.replace(c, '')] for a one-character [c]. *)
Fixpoint remove (c : ascii) (s : string) : string :=
  match s with
  | String a s' => if Ascii.eqb a c then remove c s' else String a (remove c s')
  | EmptyString => EmptyString
  end.

(** [s.split(c)] for a one-character separator: every separator cuts,
    empty pieces are kept, and the empty string gives one empty piece. *)
Fixpoint split (c : ascii) (s : string) : list string :=
  match s with
  | EmptyString => [EmptyString]
  | String a s' =>
      if Ascii.eqb a c then EmptyString :: split c s'
      else match split c s' with
           | p :: ps => String a p :: ps
           | [] => [String a EmptyString]
           end
  end.

(** [sub in s] on strings. *)
Fixpoint contains (sub s : string) : bool :=
  String.prefix sub s ||
  match s with
  | String _ s' => contains sub s'
  | EmptyString => false
  end.

(** Truth value of a string: non-empty. *)
Definition nonempty (s : string) : bool :=
  match s with EmptyString => false | _ => true end.

End PyStr.

(** ** The regular expression of [get_post_content]

    [re.search(r'^---\n(.*?)\n---', content, re.DOTALL | re.MULTILINE)]:
    the pattern is tried at every position from left to right; under
    [re.MULTILINE] the anchor holds at the start of the text and after every
    line feed; under [re.DOTALL] the lazy group takes any characters and
    stops at the first place where the closing literal follows. *)

Module Re.
Import PyStr.

Definition opening : string := lit "---\n".
Definition closing : string := lit "\n---".

Record re_match := { group1 : string; match_start : nat; match_end : nat }.

(** [(.*?)\n---] at the head of [s]: the group and the characters consumed. *)
Fixpoint lazy_group (s : string) : option (string * nat) :=
  if String.prefix closing s then Some (EmptyString, 4)
  else match s with
       | String c s' =>
           match lazy_group s' with
           | Some (g, n) => Some (String c g, S n)
           | None => None
           end
       | EmptyString => None
       end.

(** The whole pattern after its anchor, at the head of [s]. *)
Definition match_here (s : string) : option (string * nat) :=
  if String.prefix opening s then
    match lazy_group (drop 4 s) with
    | Some (g, n) => Some (g, 4 + n)
    | None => None
    end
  else None.

(** The scan of [re.search]: [bol] tells whether the anchor holds at the
    current position [pos]. *)
Fixpoint search_from (bol : bool) (pos : nat) (s : string) : option re_match :=
  match (if bol then match_here s else None) with
  | Some (g, n) => Some {| group1 := g; match_start := pos; match_end := pos + n |}
  | None =>
      match s with
      | String c s' => search_from (Ascii.eqb c LF) (S pos) s'
      | EmptyString => None
      end
  end.

Definition search (content : string) : option re_match :=
  search_from true 0 content.

End Re.

(** ** Values produced by [yaml.safe_load]

    Scalars, sequences and mappings.  A mapping is a Python [dict]: an
    association list in insertion order.  Floats, dates, timestamps and
    binaries are kept as [SOther] with their truth value and YAML text: the
    script only tests them for truth and passes them back to [yaml.dump]. *)

Inductive scalar :=
| SNull
| SBool (b : bool)
| SInt (n : Z)
| SStr (s : string)
| SOther (truth : bool) (text : string).

#[local] Set Warnings "-register-all".
Inductive yaml :=
| YScalar (a : scalar)
| YSeq (items : list yaml)
| YMap (entries : list (scalar * yaml)).

Abbreviation dict := (list (scalar * yaml)).

Inductive exn := FileNotFoundError | YAMLError | TypeError | KeyError.

(** The outcome of a Python computation: a value, [sys.exit(code)], or an
    exception that nothing catches. *)
Inductive result (A : Type) :=
| Return (a : A)
| Exit (code : Z)
| Raise (e : exn).
Arguments Return {A} a.
Arguments Exit {A} code.
Arguments Raise {A} e.

Module Py.

Definition str (s : string) : yaml := YScalar (SStr s).

(** [bool(v)] *)
Definition truthy (v : yaml) : bool :=
  match v with
  | YScalar SNull => false
  | YScalar (SBool b) => b
  | YScalar (SInt n) => negb (Z.eqb n 0)
  | YScalar (SStr s) => PyStr.nonempty s
  | YScalar (SOther t _) => t
  | YSeq [] => false
  | YSeq (_ :: _) => true
  | YMap [] => false
  | YMap (_ :: _) => true
  end.

(** [k == key] for the string [k] and a mapping key. *)
Definition key_is (k : string) (key : scalar) : bool :=
  match key with
  | SStr s => String.eqb k s
  | _ => false
  end.

(** [k == v] for the string [k] and any value. *)
Definition str_eq (k : string) (v : yaml) : bool :=
  match v with
  | YScalar a => key_is k a
  | _ => false
  end.

Definition keys (d : dict) : list scalar := map fst d.

(** [k in d] on a dict. *)
Definition dict_contains (k : string) (d : dict) : bool :=
  existsb (key_is k) (keys d).

(** [d[k]] on a dict. *)
Fixpoint dict_get (k : string) (d : dict) : option yaml :=
  match d with
  | [] => None
  | (key, v) :: d' => if key_is k key then Some v else dict_get k d'
  end.

(** [d[k] = v] on a dict: an existing key keeps its place, a new key goes
    to the end. *)
Fixpoint dict_set (k : string) (v : yaml) (d : dict) : dict :=
  match d with
  | [] => [(SStr k, v)]
  | (key, v') :: d' =>
      if key_is k key then (key, v) :: d' else (key, v') :: dict_set k v d'
  end.

(** [k in v] for the string [k]: key membership on a dict, element
    membership on a list, substring test on a string, [TypeError] on the
    other scalars. *)
Definition contains (k : string) (v : yaml) : result bool :=
  match v with
  | YMap d => Return (dict_contains k d)
  | YSeq l => Return (existsb (str_eq k) l)
  | YScalar (SStr s) => Return (PyStr.contains k s)
  | YScalar _ => Raise TypeError
  end.

(** [v[k]] for the string [k]. *)
Definition getitem (k : string) (v : yaml) : result yaml :=
  match v with
  | YMap d => match dict_get k d with Some x => Return x | None => Raise KeyError end
  | _ => Raise TypeError
  end.

(** [v[k] = x] for the string [k]. *)
Definition setitem (k : string) (x : yaml) (v : yaml) : result dict :=
  match v with
  | YMap d => Return (dict_set k x d)
  | _ => Raise TypeError
  end.

(** [v is not None] *)
Definition is_not_None (v : yaml) : bool :=
  match v with YScalar SNull => false | _ => true end.

End Py.

(** ** The world of the script *)

(** The lines the script prints, by the statement that prints them. *)
Inductive message :=
| ErrFileNotFound            (* get_post_content: "ERROR: File not found at ..." *)
| ErrNoFrontMatter           (* get_post_content: "ERROR: Could not find valid YAML Front Matter ..." *)
| WarnNoTagsParsed           (* call_llm_for_tags: "Warning: LLM returned text but could not be parsed ..." *)
| ErrApiCall                 (* call_llm_for_tags: "ERROR: Gemini API call failed ..." *)
| ErrUnexpected              (* call_llm_for_tags: "An unexpected error occurred ..." *)
| InfoNoPost                 (* main: "INFO: No new post to process ..." *)
| ErrNoApiKey                (* main: "ERROR: GEMINI_API_KEY is not set ..." *)
| InfoStarting               (* main: "--- Starting LLM Tag Generation for: ..." *)
| InfoAlreadyTagged          (* main: "INFO: Post already has LLM tags ..." *)
| InfoCalling                (* main: "Calling Gemini API..." *)
| InfoSuccess (tags : list string)  (* main: "SUCCESS: Generated and added ..." *)
| WarnGenerationFailed.      (* main: "WARNING: LLM call failed or returned no usable tags." *)

Inductive event :=
| EvRead (path : string)                 (* open(path, 'r') and f.read() *)
| EvWrite (path content : string)        (* open(path, 'w') and f.write(content) *)
| EvGenerate (prompt : string)           (* client.models.generate_content *)
| EvPrint (m : message).

Record world := { files : gmap string string; trace : list event }.

(** What [client.models.generate_content] does with a prompt. *)
Inductive reply :=
| ReplyText (text : string)   (* a response whose [.text] is a string *)
| ReplyNoText                 (* a response whose [.text] is None *)
| ReplyAPIError               (* raises APIError *)
| ReplyError.                 (* raises another exception *)

Record env := {
  POST_TO_PROCESS : option string;
  GEMINI_API_KEY : option string;
  generate_content : string -> reply
}.

(** State, [sys.exit] and exceptions. *)
Definition M (A : Type) : Type := world -> result A * world.

Definition ret {A} (a : A) : M A := fun w => (Return a, w).

Definition bind {A B} (m : M A) (k : A -> M B) : M B :=
  fun w =>
    match m w with
    | (Return a, w') => k a w'
    | (Exit c, w') => (Exit c, w')
    | (Raise e, w') => (Raise e, w')
    end.

Notation "x <- m ;; k" := (bind m (fun x => k))
  (at level 100, m at next level, right associativity).
Notation "m ;;; k" := (bind m (fun _ => k))
  (at level 100, right associativity).

Definition lift {A} (r : result A) : M A := fun w => (r, w).

Definition sys_exit {A} (code : Z) : M A := lift (Exit code).

Definition emit (e : event) : M unit :=
  fun w => (Return tt, {| files := files w; trace := trace w ++ [e] |}).

Definition print (m : message) : M unit := emit (EvPrint m).

(** [open(path, 'r')] then [f.read()]: [None] stands for FileNotFoundError. *)
Definition read_file (path : string) : M (option string) :=
  fun w => (Return (files w !! path),
            {| files := files w; trace := trace w ++ [EvRead path] |}).

(** [open(path, 'w')] then [f.write(content)]: the file is replaced. *)
Definition write_file (path content : string) : M unit :=
  fun w => (Return tt,
            {| files := <[path := content]> (files w);
               trace := trace w ++ [EvWrite path content] |}).

(** ** The script *)

Definition GENERATED_TAGS_KEY : string := "llm_tags".

(** The instruction text of [call_llm_for_tags], up to the interpolated
    content. *)
Definition PROMPT : string :=
  "Analyze the following blog post content written in ENGLISH. Generate 5 high-value, "
  +:+ "niche, and recruitment-friendly technical tags (keywords) in **ENGLISH** "
  +:+ "that best summarize the topic and skills demonstrated. Return ONLY the 5 tags "
  +:+ "separated by commas, with NO other surrounding text, punctuation, or explanation."
  +:+ "Content (first 2000 chars): ".

(** The response clean-up of [call_llm_for_tags]: the text is stripped, then
    every double quote and every single quote is replaced by nothing; the
    result is split on commas, and the pieces whose [strip()] is not empty
    are kept, stripped. *)
Definition clean_response (text : string) : string :=
  PyStr.remove PyStr.SQUOTE (PyStr.remove PyStr.DQUOTE (PyStr.strip text)).

Definition tags_of_text (tags_text : string) : list string :=
  map PyStr.strip
      (List.filter (fun tag => PyStr.nonempty (PyStr.strip tag))
                   (PyStr.split PyStr.COMMA tags_text)).

Definition call_llm_for_tags (client : string -> reply) (content : string)
  : M (option (list string)) :=
  let prompt := PROMPT +:+ PyStr.take 2000 content in
  emit (EvGenerate prompt) ;;;
  match client prompt with
  | ReplyText text =>
      let tags_text := clean_response text in
      let tags_list := tags_of_text tags_text in
      match tags_list with
      | [] => print WarnNoTagsParsed ;;; ret None
      | _ :: _ => ret (Some tags_list)
      end
  | ReplyAPIError => print ErrApiCall ;;; ret None
  | ReplyNoText | ReplyError => print ErrUnexpected ;;; ret None
  end.

Section Script.

(** The YAML library (PyYAML) is not part of the repository; the script is
    modelled over any implementation of the two calls it makes.

    [safe_load s] is [yaml.safe_load(s)], [None] when it raises.

    [yaml.dump(d, sort_keys=False)] on a dict writes the items of [d] one
    after the other, in the order of [d.items()]; [represent_item] is the
    block of text written for one item (values shared between items, which
    the dumper would write once and refer to by an alias, are outside the
    model, as tree values carry no identity).  The empty dict is written in
    flow style. *)
Variable safe_load : string -> option yaml.
Variable represent_item : scalar * yaml -> string.

Definition dump (data : dict) : string :=
  match data with
  | [] => PyStr.lit "{}\n"
  | _ :: _ => String.concat "" (map represent_item data)
  end.

(** The triple returned by [get_post_content]; [None] is the triple
    [(None, None, None)]. *)
Definition get_post_content (file_path : string)
  : M (option (yaml * string * nat)) :=
  read <- read_file file_path ;;
  match read with
  | None => print ErrFileNotFound ;;; ret None
  | Some content =>
      match Re.search content with
      | None => print ErrNoFrontMatter ;;; ret None
      | Some front_matter_match =>
          let front_matter_str := Re.group1 front_matter_match in
          match safe_load front_matter_str with
          | None => lift (Raise YAMLError)
          | Some front_matter_data =>
              let body_start_index := Re.match_end front_matter_match in
              let body_content := PyStr.drop body_start_index content in
              ret (Some (front_matter_data, body_content, body_start_index))
          end
      end
  end.

Definition tag_list (new_tags : list string) : yaml :=
  YSeq (map Py.str new_tags).

Definition update_post (file_path : string) (new_tags : list string)
  (front_matter_data : yaml) (body_start_index : nat) : M unit :=
  data <- lift (Py.setitem GENERATED_TAGS_KEY (tag_list new_tags) front_matter_data) ;;
  let new_front_matter_str := dump data in
  read <- read_file file_path ;;
  match read with
  | None => lift (Raise FileNotFoundError)
  | Some original_content =>
      let body_content := PyStr.drop body_start_index original_content in
      let new_content :=
        PyStr.lit "---\n" +:+ new_front_matter_str +:+ PyStr.lit "---\n" +:+ body_content in
      write_file file_path new_content
  end.

(** The metadata gate of the main block:
    [GENERATED_TAGS_KEY in front_matter and front_matter[GENERATED_TAGS_KEY] is not None]. *)
Definition has_tags (front_matter : yaml) : result bool :=
  match Py.contains GENERATED_TAGS_KEY front_matter with
  | Return true =>
      match Py.getitem GENERATED_TAGS_KEY front_matter with
      | Return v => Return (Py.is_not_None v)
      | Exit c => Exit c
      | Raise e => Raise e
      end
  | Return false => Return false
  | Exit c => Exit c
  | Raise e => Raise e
  end.

(** [not file_to_process or file_to_process == '[]'] *)
Definition no_post (file_to_process : option string) : bool :=
  match file_to_process with
  | None => true
  | Some f => negb (PyStr.nonempty f) || String.eqb f "[]"
  end.

(** [not api_key] *)
Definition no_key (api_key : option string) : bool :=
  match api_key with
  | None => true
  | Some k => negb (PyStr.nonempty k)
  end.

(** The block under [if __name__ == '__main__']. *)
Definition main (e : env) : M unit :=
  match POST_TO_PROCESS e with
  | None => print InfoNoPost ;;; sys_exit 0
  | Some file_to_process =>
      if no_post (Some file_to_process) then print InfoNoPost ;;; sys_exit 0
      else if no_key (GEMINI_API_KEY e) then print ErrNoApiKey ;;; sys_exit 1
      else
        print InfoStarting ;;;
        split <- get_post_content file_to_process ;;
        match split with
        | None => sys_exit 1
        | Some (front_matter, content, body_start) =>
            if negb (Py.truthy front_matter) || negb (PyStr.nonempty content)
            then sys_exit 1
            else
              tagged <- lift (has_tags front_matter) ;;
              if (tagged : bool) then print InfoAlreadyTagged ;;; sys_exit 0
              else
                print InfoCalling ;;;
                llm_tags <- call_llm_for_tags (generate_content e) content ;;
                match llm_tags with
                | Some (t :: ts) =>
                    update_post file_to_process (t :: ts) front_matter body_start ;;;
                    print (InfoSuccess (t :: ts))
                | _ => print WarnGenerationFailed ;;; sys_exit 0
                end
        end
  end.

(** One run of the script on a file system. *)
Definition run (e : env) (fs : gmap string string) : result unit * world :=
  main e {| files := fs; trace := [] |}.

End Script.

(** The exit status of the process: an uncaught exception ends it with 1. *)
Definition exit_code (r : result unit) : Z :=
  match r with
  | Return _ => 0
  | Exit code => code
  | Raise _ => 1
  end.

Definition is_generate (e : event) : bool :=
  match e with EvGenerate _ => true | _ => false end.
Definition is_write (e : event) : bool :=
  match e with EvWrite _ _ => true | _ => false end.
Definition is_read (e : event) : bool :=
  match e with EvRead _ => true | _ => false end.

Definition generator_calls (tr : list event) : nat := length (List.filter is_generate tr).
Definition file_writes (tr : list event) : nat := length (List.filter is_write tr).
Definition file_reads (tr : list event) : nat := length (List.filter is_read tr).

(** ** A fragment of YAML, for running the script on concrete files

    Block mappings whose keys are plain words and whose values are plain
    words, block sequences of plain words or one-line flow sequences of plain
    words.  On this fragment [load] and [item] give what [yaml.safe_load] and
    [yaml.dump(..., sort_keys=False)] (PyYAML 5.1 or later, block style) give;
    outside it [load] answers [None] and [item] falls back to a quoted
    scalar, and neither is meant to mirror the library. *)

Module YamlFragment.
Import PyStr.

Definition is_letter (c : ascii) : bool :=
  let n := nat_of_ascii c in
  (Nat.leb 65 n && Nat.leb n 90) || (Nat.leb 97 n && Nat.leb n 122).

Definition is_word_char (c : ascii) : bool :=
  let n := nat_of_ascii c in
  is_letter c || (Nat.leb 48 n && Nat.leb n 57)
  || Ascii.eqb c " " || Ascii.eqb c "-" || Ascii.eqb c "_".

Fixpoint all_chars (p : ascii -> bool) (s : string) : bool :=
  match s with
  | String c s' => p c && all_chars p s'
  | EmptyString => true
  end.

(** The words the YAML 1.1 resolver reads as booleans or null. *)
Definition reserved : list string :=
  ["yes"; "Yes"; "YES"; "no"; "No"; "NO"; "true"; "True"; "TRUE";
   "false"; "False"; "FALSE"; "on"; "On"; "ON"; "off"; "Off"; "OFF";
   "null"; "Null"; "NULL"].

(** A scalar that is read as a string and written without quotes: it starts
    with a letter, holds letters, digits, spaces, dashes and underscores,
    has no space at its end, is short enough never to be folded, and is
    not a reserved word. *)
Definition plain (s : string) : bool :=
  match s with
  | String c _ =>
      is_letter c && all_chars is_word_char s
      && String.eqb (rstrip s) s
      && Nat.leb (String.length s) 30
      && negb (existsb (String.eqb s) reserved)
  | EmptyString => false
  end.

Fixpoint all_plain (l : list string) : bool :=
  match l with
  | x :: l' => plain x && all_plain l'
  | [] => true
  end.

(** The text before and after the first colon of a line. *)
Fixpoint cut_colon (s : string) : option (string * string) :=
  match s with
  | String c s' =>
      if Ascii.eqb c ":" then Some (EmptyString, s')
      else match cut_colon s' with
           | Some (k, v) => Some (String c k, v)
           | None => None
           end
  | EmptyString => None
  end.

(** [[a, b, c]] on one line. *)
Definition flow_items (s : string) : option (list string) :=
  match s with
  | String "[" s' =>
      let n := String.length s' - 1 in
      if String.eqb (drop n s') "]" then
        let items := map strip (split COMMA (take n s')) in
        if all_plain items then Some items else None
      else None
  | _ => None
  end.

(** The entries read so far, and the key whose block sequence is being
    read, with the items read so far. *)
Record state := { done_entries : dict; pending : option (string * list string) }.

Definition flush (st : state) : dict :=
  match pending st with
  | None => done_entries st
  | Some (k, []) => Py.dict_set k (YScalar SNull) (done_entries st)
  | Some (k, items) => Py.dict_set k (YSeq (map Py.str items)) (done_entries st)
  end.

Definition step (st : state) (line : string) : option state :=
  match line with
  | EmptyString => Some st
  | String "-" (String " " v) =>
      match pending st with
      | Some (k, items) =>
          if plain v
          then Some {| done_entries := done_entries st; pending := Some (k, items ++ [v]) |}
          else None
      | None => None
      end
  | _ =>
      match cut_colon line with
      | Some (k, rest) =>
          if plain k then
            match rest with
            | EmptyString => Some {| done_entries := flush st; pending := Some (k, []) |}
            | String " " v =>
                if plain v
                then Some {| done_entries := Py.dict_set k (Py.str v) (flush st);
                             pending := None |}
                else match flow_items v with
                     | Some items =>
                         Some {| done_entries :=
                                   Py.dict_set k (YSeq (map Py.str items)) (flush st);
                                 pending := None |}
                     | None => None
                     end
            | _ => None
            end
          else None
      | None => None
      end
  end.

Fixpoint steps (st : state) (lines : list string) : option state :=
  match lines with
  | [] => Some st
  | line :: lines' =>
      match step st line with
      | Some st' => steps st' lines'
      | None => None
      end
  end.

Definition load (text : string) : option yaml :=
  match steps {| done_entries := []; pending := None |} (split LF text) with
  | Some st =>
      match flush st with
      | [] => Some (YScalar SNull)
      | d => Some (YMap d)
      end
  | None => None
  end.

Definition quoted (s : string) : string := "'" +:+ s +:+ "'".

Definition word (s : string) : string := if plain s then s else quoted s.

Definition scalar_text (a : scalar) : string :=
  match a with
  | SNull => "null"
  | SBool true => "true"
  | SBool false => "false"
  | SInt n => pretty n
  | SStr s => word s
  | SOther _ text => text
  end.

Definition seq_line (v : yaml) : string :=
  match v with
  | YScalar a => "- " +:+ scalar_text a +:+ String LF ""
  | _ => "- " +:+ quoted "nested" +:+ String LF ""
  end.

Definition item (kv : scalar * yaml) : string :=
  let (k, v) := kv in
  match v with
  | YScalar a => scalar_text k +:+ ": " +:+ scalar_text a +:+ String LF ""
  | YSeq [] => scalar_text k +:+ ": []" +:+ String LF ""
  | YSeq l => scalar_text k +:+ ":" +:+ String LF "" +:+ String.concat "" (map seq_line l)
  | YMap _ => scalar_text k +:+ ": " +:+ quoted "nested" +:+ String LF ""
  end.

End YamlFragment.

(** ** The run, path by path

    The same run with its effects written out: for each way through the main
    block, the outcome, the final file system and the trace. *)

Definition P (m : message) : event := EvPrint m.

Definition W (fs : gmap string string) (tr : list event) : world :=
  {| files := fs; trace := tr |}.

Definition prompt_of (body : string) : string := PROMPT +:+ PyStr.take 2000 body.

Section Paths.
Variable safe_load : string -> option yaml.
Variable represent_item : scalar * yaml -> string.

(** The text [update_post] writes. *)
Definition rewritten (data : dict) (body : string) : string :=
  PyStr.lit "---\n" +:+ dump represent_item data +:+ PyStr.lit "---\n" +:+ body.

(** A run that reaches the generator, given the parsed front matter and
    the body. *)
Definition generate_path (e : env) (fs : gmap string string) (path : string)
  (fm : yaml) (body : string) : result unit * world :=
  let tr := [P InfoStarting; EvRead path; P InfoCalling; EvGenerate (prompt_of body)] in
  match generate_content e (prompt_of body) with
  | ReplyText text =>
      match tags_of_text (clean_response text) with
      | [] => (Exit 0, W fs (tr ++ [P WarnNoTagsParsed; P WarnGenerationFailed]))
      | t :: ts =>
          match Py.setitem GENERATED_TAGS_KEY (tag_list (t :: ts)) fm with
          | Return data =>
              (Return tt,
               W (<[path := rewritten data body]> fs)
                 (tr ++ [EvRead path; EvWrite path (rewritten data body);
                         P (InfoSuccess (t :: ts))]))
          | Exit c => (Exit c, W fs tr)
          | Raise x => (Raise x, W fs tr)
          end
      end
  | ReplyAPIError => (Exit 0, W fs (tr ++ [P ErrApiCall; P WarnGenerationFailed]))
  | ReplyNoText | ReplyError =>
      (Exit 0, W fs (tr ++ [P ErrUnexpected; P WarnGenerationFailed]))
  end.

(** A run whose document was split into front matter and body. *)
Definition parsed_path (e : env) (fs : gmap string string) (path : string)
  (fm : yaml) (body : string) : result unit * world :=
  let tr := [P InfoStarting; EvRead path] in
  if negb (Py.truthy fm) || negb (PyStr.nonempty body) then (Exit 1, W fs tr)
  else
    match has_tags fm with
    | Return true => (Exit 0, W fs (tr ++ [P InfoAlreadyTagged]))
    | Return false => generate_path e fs path fm body
    | Exit c => (Exit c, W fs tr)
    | Raise x => (Raise x, W fs tr)
    end.

Definition run_paths (e : env) (fs : gmap string string) : result unit * world :=
  if no_post (POST_TO_PROCESS e) then (Exit 0, W fs [P InfoNoPost])
  else if no_key (GEMINI_API_KEY e) then (Exit 1, W fs [P ErrNoApiKey])
  else
    let path := match POST_TO_PROCESS e with Some f => f | None => EmptyString end in
    match fs !! path with
    | None => (Exit 1, W fs [P InfoStarting; EvRead path; P ErrFileNotFound])
    | Some content =>
        match Re.search content with
        | None => (Exit 1, W fs [P InfoStarting; EvRead path; P ErrNoFrontMatter])
        | Some m =>
            match safe_load (Re.group1 m) with
            | None => (Raise YAMLError, W fs [P InfoStarting; EvRead path])
            | Some fm => parsed_path e fs path fm (PyStr.drop (Re.match_end m) content)
            end
        end
    end.

(** What [get_post_content] returns for a file of a file system. *)
Definition split_file (fs : gmap string string) (path : string)
  : result (option (yaml * string * nat)) :=
  fst (get_post_content safe_load path (W fs [])).

(** The document was split: [get_post_content] returned a triple. *)
Definition parses (fs : gmap string string) (path : string) : bool :=
  match split_file fs path with
  | Return (Some _) => true
  | _ => false
  end.

(** The front matter is not a mapping and a statement of the script raises
    TypeError on it: the gate itself, or the item assignment of
    [update_post] once the generator has answered with tags. *)
Definition stops_on_type_error (e : env) (fm : yaml) (body : string) : bool :=
  match has_tags fm with
  | Return true => false
  | Return false =>
      match fm, generate_content e (prompt_of body) with
      | YMap _, _ => false
      | _, ReplyText text =>
          match tags_of_text (clean_response text) with [] => false | _ :: _ => true end
      | _, _ => false
      end
  | _ => true
  end.

(** The main block turns the designated document away: it cannot be split
    or parsed, or its front matter or its body is empty. *)
Definition rejected (fs : gmap string string) (path : string) : bool :=
  match split_file fs path with
  | Return (Some (fm, body, _)) => negb (Py.truthy fm) || negb (PyStr.nonempty body)
  | _ => true
  end.

(** The same, or a type error stops the run. *)
Definition rejected_or_type_error (e : env) (fs : gmap string string) (path : string)
  : bool :=
  match split_file fs path with
  | Return (Some (fm, body, _)) =>
      negb (Py.truthy fm) || negb (PyStr.nonempty body) || stops_on_type_error e fm body
  | _ => true
  end.

(** The front matter of the file, when the file is split, is a mapping or
    null. *)
Definition mapping_front_matter (fs : gmap string string) (path : string) : Prop :=
  forall fm body off,
    split_file fs path = Return (Some (fm, body, off)) ->
    (exists d, fm = YMap d) \/ fm = YScalar SNull.

(** One read, modify, write, read cycle on a file: split it, rewrite it
    with [new_tags], split the result. *)
Definition cycle (fs : gmap string string) (path : string) (new_tags : list string)
  : option ((yaml * string * nat) * string * (yaml * string * nat)) :=
  match split_file fs path with
  | Return (Some (fm, body, off)) =>
      match update_post represent_item path new_tags fm off (W fs []) with
      | (Return _, w) =>
          match files w !! path, split_file (files w) path with
          | Some text, Return (Some after) => Some ((fm, body, off), text, after)
          | _, _ => None
          end
      | _ => None
      end
  | _ => None
  end.

End Paths.

(** ** The statements of the specification that the script is checked against *)

Section Claims.
Variable safe_load : string -> option yaml.
Variable represent_item : scalar * yaml -> string.

(** Exit codes as the specification gives them for a designated file: 1
    exactly when the credential is missing or the document cannot be
    parsed. *)
Definition exit_codes_as_specified (e : env) (fs : gmap string string)
  (path : string) : Prop :=
  exit_code (fst (run safe_load represent_item e fs)) = 1%Z
  <-> (no_key (GEMINI_API_KEY e) = true \/ parses safe_load fs path = false).

(** An empty body is legal as the specification has it: the run is not
    fatal, and a cycle keeps the body empty. *)
Definition empty_body_is_legal (e : env) (fs : gmap string string)
  (path : string) (new_tags : list string) : Prop :=
  exit_code (fst (run safe_load represent_item e fs)) <> 1%Z
  /\ exists before text m off,
       cycle safe_load represent_item fs path new_tags
       = Some (before, text, (m, EmptyString, off)).

(** The round trip of the specification: after a cycle the body is the
    body that was read, and the metadata is the metadata that was read
    with the reserved key set to the tags. *)
Definition cycle_preserves (fs : gmap string string) (path : string)
  (new_tags : list string) : Prop :=
  forall d body off text m' body' off',
    cycle safe_load represent_item fs path new_tags
    = Some ((YMap d, body, off), text, (m', body', off')) ->
    body' = body
    /\ m' = YMap (Py.dict_set GENERATED_TAGS_KEY (tag_list new_tags) d).

(** The splitter of the specification: a document is accepted only when
    the block stands at the very start of the text. *)
Definition block_only_at_start (fs : gmap string string) (path : string) : Prop :=
  forall content,
    fs !! path = Some content ->
    Re.match_here content = None ->
    split_file safe_load fs path = Return None.

End Claims.

(** ** The scenarios of the specification *)

Module Scenario.
Import PyStr.

Definition post : string := "post.md".

(** Both variables set, and a generator that answers [text]. *)
Definition answering (text : string) : env :=
  {| POST_TO_PROCESS := Some post;
     GEMINI_API_KEY := Some "secret";
     generate_content := fun _ => ReplyText text |}.

Definition holding (document : string) : gmap string string :=
  {[ post := document ]}.

Definition untagged : string := lit "---\ntitle: Hello\n---\nBody text.".
Definition tagged : string := lit "---\ntitle: Hello\nllm_tags: [x, y]\n---\nBody text.".
Definition empty_body : string := lit "---\ntitle: Hello\n---".
Definition late_block : string := lit "Intro\n---\ntitle: Hello\n---\nBody text.".

Definition hello : dict := [(SStr "title", Py.str "Hello")].
Definition three_tags : list string := ["go"; "rust"; "cli"].

Definition run_on (e : env) (fs : gmap string string) : result unit * world :=
  run YamlFragment.load YamlFragment.item e fs.

Definition tags_entry : scalar * yaml :=
  (SStr GENERATED_TAGS_KEY, tag_list three_tags).

End Scenario.

(** ** The tag list, piece by piece

    The response clean-up read piece by piece, in the order in which the
    code comes to it: the text is split on commas; each piece loses its
    quote characters, then is trimmed; the pieces left empty are dropped.
    (The source removes the quotes from the whole text before it splits and
    trims.) *)

Definition unquote (piece : string) : string :=
  PyStr.remove PyStr.SQUOTE (PyStr.remove PyStr.DQUOTE piece).

Definition tags_by_piece (text : string) : list string :=
  List.filter PyStr.nonempty
    (map (fun piece => PyStr.strip (unquote piece)) (PyStr.split PyStr.COMMA text)).

(** The character [c] occurs in [s]. *)
Fixpoint occurs (c : ascii) (s : string) : bool :=
  match s with
  | String a s' => Ascii.eqb a c || occurs c s'
  | EmptyString => false
  end.

Fixpoint all_space (s : string) : bool :=
  match s with
  | String c s' => PyStr.isspace c && all_space s'
  | EmptyString => true
  end.

Definition map_head {A} (f : A -> A) (l : list A) : list A :=
  match l with
  | x :: l' => f x :: l'
  | [] => []
  end.

Fixpoint map_last {A} (f : A -> A) (l : list A) : list A :=
  match l with
  | [] => []
  | [x] => [f x]
  | x :: l' => x :: map_last f l'
  end.

(** ** Notions for further properties of the script *)

(** Position [k] of the text starts a line: it is the start of the text or
    follows a line feed. *)
Definition line_start (k : nat) (s : string) : Prop :=
  k = 0 \/ exists j, k = S j /\ String.get j s = Some PyStr.LF.

(** A tag as the clean-up returns them: not empty, trimmed, without comma
    or quote character. *)
Definition clean_tag (t : string) : bool :=
  PyStr.nonempty t && String.eqb (PyStr.strip t) t
  && negb (occurs PyStr.COMMA t)
  && negb (occurs PyStr.SQUOTE t)
  && negb (occurs PyStr.DQUOTE t).

(** The library reads back the mapping it wrote: the text of the mapping
    ends with a line feed, no line of it starts with three dashes, and
    loading it without its last line feed gives the mapping. *)
Definition reads_back (safe_load : string -> option yaml)
  (represent_item : scalar * yaml -> string) (data : dict) : Prop :=
  exists block,
    dump represent_item data = block +:+ String PyStr.LF ""
    /\ Re.lazy_group (block +:+ Re.closing) = Some (block, String.length block + 4)
    /\ safe_load block = Some (YMap data).

(** ** Further documents and mappings to run the script on *)

Module Cases.
Import PyStr.

(** A file without any line of dashes. *)
Definition no_dashes : string := lit "title: Hello\nBody text.".

(** A mapping whose reserved key is there with a null value, between two
    other keys. *)
Definition null_tags : dict :=
  [(SStr "title", Py.str "Hello");
   (SStr GENERATED_TAGS_KEY, YScalar SNull);
   (SStr "author", Py.str "Ann")].

(** A loader for which every block is the one-word text [notes]: a front
    matter that is a string. *)
Definition load_notes (block : string) : option yaml := Some (Py.str "notes").

End Cases.

(** ** Further statements of the specification, and notions to amend them *)

(** The tag list in the order of the specification's words: the text is
    split on commas, each piece is trimmed, then freed of its quote
    characters, and the pieces left empty are dropped. *)
Definition tags_as_worded (text : string) : list string :=
  List.filter PyStr.nonempty
    (map (fun piece => unquote (PyStr.strip piece)) (PyStr.split PyStr.COMMA text)).

(** The last character of a text. *)
Fixpoint last_char (s : string) : option ascii :=
  match s with
  | EmptyString => None
  | String c EmptyString => Some c
  | String _ s' => last_char s'
  end.

(** The text starts or ends with a whitespace character. *)
Definition blank_at_ends (s : string) : bool :=
  match s with
  | EmptyString => false
  | String c _ =>
      PyStr.isspace c
      || match last_char s with Some z => PyStr.isspace z | None => false end
  end.

(** Two runs in a row, the second on the file system the first one left,
    call the generator at most once between them. *)
Definition two_runs_one_call (safe_load : string -> option yaml)
  (represent_item : scalar * yaml -> string) (e : env) (fs : gmap string string) : Prop :=
  let w1 := snd (run safe_load represent_item e fs) in
  let w2 := snd (run safe_load represent_item e (files w1)) in
  generator_calls (trace w1) + generator_calls (trace w2) <= 1.

(** * Theorems *)

Create HintDb script.
#[local] Hint Unfold bind ret lift sys_exit print emit read_file write_file
  get_post_content update_post call_llm_for_tags prompt_of : script.

Ltac norm :=
  repeat progress autounfold with script;
  cbv beta iota zeta delta [files trace].

Section RunFacts.
Variable safe_load : string -> option yaml.
Variable represent_item : scalar * yaml -> string.

Lemma run_eq (e : env) (fs : gmap string string) :
  run safe_load represent_item e fs = run_paths safe_load represent_item e fs.
Proof.
  unfold run_paths, run, main.
  destruct (POST_TO_PROCESS e) as [path|]; [|reflexivity].
  destruct (no_post (Some path)); [reflexivity|].
  destruct (no_key (GEMINI_API_KEY e)); [reflexivity|].
  norm.
  destruct (fs !! path) as [content|] eqn:Hfile; [|reflexivity].
  norm.
  destruct (Re.search content) as [m|]; [|reflexivity].
  destruct (safe_load (Re.group1 m)) as [fm|]; [|reflexivity].
  norm. unfold parsed_path.
  destruct (negb (Py.truthy fm) || negb (PyStr.nonempty (PyStr.drop (Re.match_end m) content)));
    [reflexivity|].
  destruct (has_tags fm) as [[|]| |]; try reflexivity.
  unfold generate_path. norm.
  destruct (generate_content e _) as [text| | |]; try reflexivity.
  destruct (tags_of_text (clean_response text)) as [|t ts]; [reflexivity|].
  norm.
  destruct (Py.setitem _ _ fm) as [data| |]; try reflexivity.
  rewrite Hfile. reflexivity.
Qed.

Lemma split_file_eq (fs : gmap string string) (path : string) :
  split_file safe_load fs path =
  match fs !! path with
  | None => Return None
  | Some content =>
      match Re.search content with
      | None => Return None
      | Some m =>
          match safe_load (Re.group1 m) with
          | None => Raise YAMLError
          | Some fm =>
              Return (Some (fm, PyStr.drop (Re.match_end m) content, Re.match_end m))
          end
      end
  end.
Proof.
  unfold split_file, W. norm.
  destruct (fs !! path) as [content|]; [|reflexivity].
  destruct (Re.search content) as [m|]; [|reflexivity].
  destruct (safe_load (Re.group1 m)); reflexivity.
Qed.

Lemma has_tags_no_exit (fm : yaml) (c : Z) : has_tags fm <> Exit c.
Proof.
  unfold has_tags.
  destruct fm as [[]| |d]; simpl; try discriminate.
  - destruct (PyStr.contains _ _); discriminate.
  - destruct (existsb _ _); discriminate.
  - destruct (Py.dict_contains _ d); [|discriminate].
    destruct (Py.dict_get _ d); discriminate.
Qed.

Lemma setitem_mapping (k : string) (x fm : yaml) :
  match fm with
  | YMap d => Py.setitem k x fm = Return (Py.dict_set k x d)
  | _ => Py.setitem k x fm = Raise TypeError
  end.
Proof. destruct fm; reflexivity. Qed.

Lemma dict_get_contains (k : string) (d : dict) (v : yaml) :
  Py.dict_get k d = Some v -> Py.dict_contains k d = true.
Proof.
  unfold Py.dict_contains, Py.keys.
  induction d as [|[key x] d IH]; simpl; [discriminate|].
  destruct (Py.key_is k key); [reflexivity|]. exact IH.
Qed.

Lemma has_tags_present (d : dict) (v : yaml) :
  Py.dict_get GENERATED_TAGS_KEY d = Some v ->
  has_tags (YMap d) = Return (Py.is_not_None v).
Proof.
  intros Hget. unfold has_tags, Py.contains, Py.getitem.
  rewrite (dict_get_contains _ _ _ Hget), Hget. reflexivity.
Qed.

End RunFacts.

(** ** Exit codes, the gate and the frame of a run *)

Ltac count_events := unfold file_writes, generator_calls, file_reads, W, P; simpl.

Ltac ends_0 :=
  simpl; split; [left; reflexivity|];
  split; [discriminate | intros [? [?|?]]; discriminate].
Ltac ends_1 :=
  simpl; split; [right; reflexivity|];
  split; [intros _; split; [reflexivity | auto] | reflexivity].

Section RunTheorems.
Variable safe_load : string -> option yaml.
Variable represent_item : scalar * yaml -> string.

Abbreviation run' := (run safe_load represent_item).

(** C9: when POST_TO_PROCESS holds the literal text of an empty list, the
    run is the run with the variable unset: exit code 0 after the one
    line "no new post", no file read, no generator call, no write. *)
Theorem empty_list_literal_is_no_post
  (api_key : option string) (client : string -> reply) (fs : gmap string string) :
  let e_literal := {| POST_TO_PROCESS := Some "[]"; GEMINI_API_KEY := api_key;
                      generate_content := client |} in
  let e_unset := {| POST_TO_PROCESS := None; GEMINI_API_KEY := api_key;
                    generate_content := client |} in
  run' e_literal fs = run' e_unset fs
  /\ exit_code (fst (run' e_literal fs)) = 0%Z
  /\ trace (snd (run' e_literal fs)) = [EvPrint InfoNoPost]
  /\ file_reads (trace (snd (run' e_literal fs))) = 0
  /\ generator_calls (trace (snd (run' e_literal fs))) = 0
  /\ file_writes (trace (snd (run' e_literal fs))) = 0
  /\ files (snd (run' e_literal fs)) = fs.
Proof. cbv zeta. repeat split. Qed.

(** C10: a run opens the file for writing at most once; when it does, the
    generator was called and answered with a text that parses to a
    non-empty tag list, and the file written is the designated one; when
    it does not, the file system is left as it was. *)
Theorem writes_only_after_tags (e : env) (fs : gmap string string) :
  let w := snd (run' e fs) in
  file_writes (trace w) <= 1
  /\ (file_writes (trace w) = 0 -> files w = fs)
  /\ (file_writes (trace w) = 1 ->
      exists path content prompt text t ts,
        POST_TO_PROCESS e = Some path
        /\ In (EvGenerate prompt) (trace w)
        /\ generate_content e prompt = ReplyText text
        /\ tags_of_text (clean_response text) = t :: ts
        /\ In (EvWrite path content) (trace w)
        /\ files w = <[path := content]> fs).
Proof.
  cbv zeta. rewrite run_eq. unfold run_paths.
  destruct (no_post (POST_TO_PROCESS e)) eqn:Hpost;
    [count_events; repeat split; (lia || discriminate)|].
  destruct (no_key (GEMINI_API_KEY e));
    [count_events; repeat split; (lia || discriminate)|].
  destruct (POST_TO_PROCESS e) as [path|]; [|discriminate Hpost].
  destruct (fs !! path) as [content|];
    [|count_events; repeat split; (lia || discriminate)].
  destruct (Re.search content) as [m|];
    [|count_events; repeat split; (lia || discriminate)].
  destruct (safe_load (Re.group1 m)) as [fm|];
    [|count_events; repeat split; (lia || discriminate)].
  unfold parsed_path.
  destruct (negb (Py.truthy fm) || negb (PyStr.nonempty _));
    [count_events; repeat split; (lia || discriminate)|].
  destruct (has_tags fm) as [[|]| |];
    try (count_events; repeat split; (lia || discriminate)).
  unfold generate_path.
  destruct (generate_content e _) as [text| | |] eqn:Hreply;
    try (count_events; repeat split; (lia || discriminate)).
  destruct (tags_of_text (clean_response text)) as [|t ts] eqn:Htags;
    [count_events; repeat split; (lia || discriminate)|].
  destruct (Py.setitem _ _ fm) as [data| |];
    try (count_events; repeat split; (lia || discriminate)).
  count_events. split; [lia|]. split; [discriminate|]. intros _.
  eexists path, _, _, text, t, ts.
  split; [reflexivity|]. split; [right; right; right; left; reflexivity|].
  split; [exact Hreply|]. split; [exact Htags|].
  split; [|reflexivity]. do 5 right. left. reflexivity.
Qed.

(** Every run ends with code 0 or 1, and with 1 exactly when a file is
    designated and the credential is missing, the document is turned away,
    or a type error stops the run. *)
Lemma exit_code_exact (e : env) (fs : gmap string string) :
  let code := exit_code (fst (run' e fs)) in
  let path := match POST_TO_PROCESS e with Some f => f | None => EmptyString end in
  (code = 0%Z \/ code = 1%Z)
  /\ (code = 1%Z <->
      no_post (POST_TO_PROCESS e) = false
      /\ (no_key (GEMINI_API_KEY e) = true
          \/ rejected_or_type_error safe_load e fs path = true)).
Proof.
  cbv zeta. rewrite run_eq. unfold run_paths, rejected_or_type_error.
  rewrite split_file_eq.
  destruct (no_post (POST_TO_PROCESS e)); [ends_0|].
  destruct (no_key (GEMINI_API_KEY e)); [ends_1|].
  set (path := match POST_TO_PROCESS e with Some f => f | None => EmptyString end).
  destruct (fs !! path) as [content|]; [|ends_1].
  destruct (Re.search content) as [m|]; [|ends_1].
  destruct (safe_load (Re.group1 m)) as [fm|]; [|ends_1].
  unfold parsed_path, stops_on_type_error.
  set (body := PyStr.drop (Re.match_end m) content).
  destruct (negb (Py.truthy fm) || negb (PyStr.nonempty body)); [ends_1|].
  rewrite orb_false_l.
  pose proof (has_tags_no_exit fm) as Hexit.
  destruct (has_tags fm) as [[|]|c|];
    [ends_0 | | contradiction (Hexit c); reflexivity | ends_1].
  unfold generate_path.
  pose proof (setitem_mapping GENERATED_TAGS_KEY) as Hset.
  destruct (generate_content e (prompt_of body)) as [text| | |].
  2-4: (destruct fm; ends_0).
  destruct (tags_of_text (clean_response text)) as [|t ts]; [destruct fm; ends_0|].
  specialize (Hset (tag_list (t :: ts)) fm).
  destruct fm; rewrite Hset; [ends_1 | ends_1 | ends_0].
Qed.

Lemma has_tags_mapping (d : dict) : exists b, has_tags (YMap d) = Return b.
Proof.
  unfold has_tags, Py.contains, Py.getitem.
  destruct (Py.dict_contains GENERATED_TAGS_KEY d) eqn:Hin; [|eauto].
  assert (Hget : exists v, Py.dict_get GENERATED_TAGS_KEY d = Some v).
  { revert Hin. unfold Py.dict_contains, Py.keys.
    induction d as [|[key x] d IH]; simpl; [discriminate|].
    destruct (Py.key_is GENERATED_TAGS_KEY key); eauto. }
  destruct Hget as [v ->]. eauto.
Qed.

Lemma no_type_error_on_mapping (e : env) (fs : gmap string string) (path : string) :
  mapping_front_matter safe_load fs path ->
  rejected_or_type_error safe_load e fs path = rejected safe_load fs path.
Proof.
  unfold mapping_front_matter, rejected_or_type_error, rejected.
  intros Hmap.
  destruct (split_file safe_load fs path) as [[[[fm body] off]|]| |]; try reflexivity.
  destruct (Hmap fm body off eq_refl) as [[d ->]| ->]; [|reflexivity].
  unfold stops_on_type_error. destruct (has_tags_mapping d) as [[|] ->];
    cbv beta iota; apply orb_false_r.
Qed.

(** C3, as amended: on a document whose front matter, when it is parsed,
    is a mapping or null, every run ends with code 0 or 1, and with 1
    exactly when a file is designated and the credential is missing or the
    document is turned away: it cannot be split or parsed, or its front
    matter is empty, or its body is empty.  So a run that reaches the
    generator ends with 0 whatever the generator does. *)
Theorem exit_code_one_iff (e : env) (fs : gmap string string) :
  let code := exit_code (fst (run' e fs)) in
  let path := match POST_TO_PROCESS e with Some f => f | None => EmptyString end in
  mapping_front_matter safe_load fs path ->
  (code = 0%Z \/ code = 1%Z)
  /\ (code = 1%Z <->
      no_post (POST_TO_PROCESS e) = false
      /\ (no_key (GEMINI_API_KEY e) = true \/ rejected safe_load fs path = true)).
Proof.
  cbv zeta. intros Hmap.
  rewrite <- (no_type_error_on_mapping e fs _ Hmap). apply exit_code_exact.
Qed.

End RunTheorems.

(** ** The response clean-up *)

Section Strings.
Import PyStr.

Lemma append_String (c : ascii) (a b : string) :
  String c a +:+ b = String c (a +:+ b).
Proof. reflexivity. Qed.

Lemma append_Empty (b : string) : EmptyString +:+ b = b.
Proof. reflexivity. Qed.

Ltac sapp :=
  repeat match goal with
    | |- context [String ?c ?a +:+ ?b] => rewrite (append_String c a b)
    | |- context [EmptyString +:+ ?b] => rewrite (append_Empty b)
    | H : context [String ?c ?a +:+ ?b] |- _ => rewrite (append_String c a b) in H
    | H : context [EmptyString +:+ ?b] |- _ => rewrite (append_Empty b) in H
    end.

Lemma space_is_no_mark (c : ascii) :
  isspace c = true ->
  Ascii.eqb c COMMA = false /\ Ascii.eqb c SQUOTE = false /\ Ascii.eqb c DQUOTE = false.
Proof.
  destruct c as [[] [] [] [] [] [] [] []]; vm_compute; intros H;
    try discriminate H; repeat split.
Qed.

Lemma split_cons (c : ascii) (s : string) : exists p ps, split c s = p :: ps.
Proof.
  destruct s as [|a s]; simpl; [eauto|].
  destruct (Ascii.eqb a c); [eauto|]. destruct (split c s); eauto.
Qed.

Lemma lstrip_all_space (ws : string) : all_space ws = true -> lstrip ws = EmptyString.
Proof.
  induction ws as [|c ws IH]; simpl; sapp; [reflexivity|].
  intros [Hc Hws]%andb_true_iff. rewrite Hc. auto.
Qed.

Lemma rstrip_all_space (ws : string) : all_space ws = true -> rstrip ws = EmptyString.
Proof.
  induction ws as [|c ws IH]; simpl; sapp; [reflexivity|].
  intros [Hc Hws]%andb_true_iff. rewrite (IH Hws), Hc. reflexivity.
Qed.

Lemma lstrip_decompose (t : string) :
  exists ws, all_space ws = true /\ t = ws +:+ lstrip t.
Proof.
  induction t as [|c t (ws & Hws & Ht)]; simpl; sapp.
  - exists EmptyString. auto.
  - destruct (isspace c) eqn:Hc.
    + exists (String c ws). simpl; sapp. rewrite Hc, Hws. split; [reflexivity|]. congruence.
    + exists EmptyString. auto.
Qed.

Lemma rstrip_decompose (t : string) :
  exists ws, all_space ws = true /\ t = rstrip t +:+ ws.
Proof.
  induction t as [|c t (ws & Hws & Ht)]; simpl.
  - exists EmptyString. auto.
  - destruct (rstrip t) as [|a r] eqn:Hr; sapp.
    + subst t. destruct (isspace c) eqn:Hc.
      * exists (String c ws). simpl. rewrite Hc, Hws. auto.
      * exists ws. auto.
    + exists ws. split; [exact Hws|]. sapp. congruence.
Qed.

Lemma lstrip_app_space (ws x : string) :
  all_space ws = true -> lstrip (ws +:+ x) = lstrip x.
Proof.
  induction ws as [|c ws IH]; simpl; sapp; [reflexivity|].
  intros [Hc Hws]%andb_true_iff. rewrite Hc. auto.
Qed.

Lemma rstrip_app_space (x ws : string) :
  all_space ws = true -> rstrip (x +:+ ws) = rstrip x.
Proof.
  intros Hws. induction x as [|c x IH]; simpl; sapp.
  - apply rstrip_all_space, Hws.
  - rewrite IH. reflexivity.
Qed.

Lemma lstrip_app_right (x ws : string) :
  all_space ws = true ->
  exists ws', all_space ws' = true /\ lstrip (x +:+ ws) = lstrip x +:+ ws'.
Proof.
  intros Hws. induction x as [|c x IH]; simpl; sapp.
  - exists EmptyString. split; [reflexivity|]. apply lstrip_all_space, Hws.
  - destruct (isspace c); [exact IH|]. exists ws. auto.
Qed.

Lemma strip_app_space_l (ws x : string) :
  all_space ws = true -> strip (ws +:+ x) = strip x.
Proof. intros Hws. unfold strip. rewrite lstrip_app_space; auto. Qed.

Lemma strip_app_space_r (x ws : string) :
  all_space ws = true -> strip (x +:+ ws) = strip x.
Proof.
  intros Hws. unfold strip.
  destruct (lstrip_app_right x ws Hws) as (ws' & Hws' & ->).
  apply rstrip_app_space, Hws'.
Qed.

Lemma remove_app (q : ascii) (a b : string) :
  remove q (a +:+ b) = remove q a +:+ remove q b.
Proof.
  induction a as [|c a IH]; simpl; sapp; [reflexivity|].
  destruct (Ascii.eqb c q); sapp; simpl; congruence.
Qed.

Lemma unquote_space (ws : string) : all_space ws = true -> unquote ws = ws.
Proof.
  unfold unquote. induction ws as [|c ws IH]; simpl; sapp; [reflexivity|].
  intros [Hc Hws]%andb_true_iff.
  destruct (space_is_no_mark c Hc) as (_ & Hs & Hd).
  rewrite Hd. simpl. rewrite Hs, (IH Hws). reflexivity.
Qed.

Lemma unquote_app (a b : string) : unquote (a +:+ b) = unquote a +:+ unquote b.
Proof. unfold unquote. rewrite !remove_app. reflexivity. Qed.

(** Blanks around a piece do not show in its tag. *)
Lemma tag_of_padded_l (ws p : string) :
  all_space ws = true -> strip (unquote (ws +:+ p)) = strip (unquote p).
Proof.
  intros Hws. rewrite unquote_app, (unquote_space ws Hws).
  apply strip_app_space_l, Hws.
Qed.

Lemma tag_of_padded_r (p ws : string) :
  all_space ws = true -> strip (unquote (p +:+ ws)) = strip (unquote p).
Proof.
  intros Hws. rewrite unquote_app, (unquote_space ws Hws).
  apply strip_app_space_r, Hws.
Qed.

Lemma split_space (ws : string) :
  all_space ws = true -> split COMMA ws = [ws].
Proof.
  induction ws as [|c ws IH]; simpl; sapp; [reflexivity|].
  intros [Hc Hws]%andb_true_iff.
  destruct (space_is_no_mark c Hc) as (-> & _). rewrite (IH Hws). reflexivity.
Qed.

Lemma split_app_space_l (ws s : string) :
  all_space ws = true ->
  split COMMA (ws +:+ s) = map_head (fun p => ws +:+ p) (split COMMA s).
Proof.
  induction ws as [|c ws IH]; simpl; sapp.
  - intros _. destruct (split COMMA s); reflexivity.
  - intros [Hc Hws]%andb_true_iff.
    destruct (space_is_no_mark c Hc) as (-> & _). rewrite (IH Hws).
    destruct (split_cons COMMA s) as (p & ps & ->). reflexivity.
Qed.

Lemma split_app_space_r (s ws : string) :
  all_space ws = true ->
  split COMMA (s +:+ ws) = map_last (fun p => p +:+ ws) (split COMMA s).
Proof.
  intros Hws. induction s as [|c s IH]; simpl; sapp.
  - apply split_space, Hws.
  - rewrite IH. destruct (split_cons COMMA s) as (p & ps & ->).
    destruct (Ascii.eqb c COMMA); [reflexivity|].
    destruct ps; reflexivity.
Qed.

Lemma map_map_head {A B} (f : A -> B) (g : A -> A) (l : list A) :
  (forall x, f (g x) = f x) -> map f (map_head g l) = map f l.
Proof. intros H. destruct l; simpl; congruence. Qed.

Lemma map_map_last {A B} (f : A -> B) (g : A -> A) (l : list A) :
  (forall x, f (g x) = f x) -> map f (map_last g l) = map f l.
Proof.
  intros H. induction l as [|x [|y l] IH]; simpl in *; congruence.
Qed.

Lemma split_remove (q : ascii) (s : string) :
  Ascii.eqb q COMMA = false ->
  split COMMA (remove q s) = map (remove q) (split COMMA s).
Proof.
  intros Hq. induction s as [|c s IH]; simpl; sapp; [reflexivity|].
  destruct (Ascii.eqb c q) eqn:Hcq.
  - apply Ascii.eqb_eq in Hcq. subst c. rewrite Hq, IH.
    destruct (split_cons COMMA s) as (p & ps & ->). simpl.
    rewrite Ascii.eqb_refl. reflexivity.
  - simpl. destruct (Ascii.eqb c COMMA); simpl; rewrite IH; [reflexivity|].
    destruct (split_cons COMMA s) as (p & ps & ->). simpl. rewrite Hcq. reflexivity.
Qed.

Lemma tags_filter_map (l : list string) :
  map strip (List.filter (fun tag => nonempty (strip tag)) l)
  = List.filter nonempty (map strip l).
Proof.
  induction l as [|x l IH]; simpl; sapp; [reflexivity|].
  destruct (nonempty (strip x)); simpl; congruence.
Qed.

(** The clean-up of the whole text gives the tags read piece by piece. *)
Lemma tags_of_text_by_piece (text : string) :
  tags_of_text (clean_response text) = tags_by_piece text.
Proof.
  unfold tags_of_text, clean_response, tags_by_piece.
  rewrite tags_filter_map. f_equal.
  rewrite !split_remove by reflexivity. rewrite !map_map.
  change (fun x => strip (remove SQUOTE (remove DQUOTE x)))
    with (fun piece => strip (unquote piece)).
  unfold strip at 2.
  destruct (rstrip_decompose (lstrip text)) as (wr & Hwr & Hr).
  destruct (lstrip_decompose text) as (wl & Hwl & Hl).
  rewrite Hl at 2. rewrite Hr at 2.
  rewrite split_app_space_l by exact Hwl.
  rewrite split_app_space_r by exact Hwr.
  rewrite map_map_head by (intros; apply tag_of_padded_l, Hwl).
  rewrite map_map_last by (intros; apply tag_of_padded_r, Hwr).
  reflexivity.
Qed.

End Strings.

Section Tags.
Import PyStr.

Lemma occurs_lstrip (c : ascii) (s : string) :
  occurs c (lstrip s) = true -> occurs c s = true.
Proof.
  induction s as [|a s IH]; simpl; [auto|].
  destruct (isspace a); [|auto].
  intros H. rewrite (IH H). apply orb_true_r.
Qed.

Lemma occurs_rstrip (c : ascii) (s : string) :
  occurs c (rstrip s) = true -> occurs c s = true.
Proof.
  induction s as [|a s IH]; simpl; [auto|].
  destruct (rstrip s) as [|b r].
  - destruct (isspace a); simpl; [discriminate|].
    rewrite orb_false_r. intros ->. reflexivity.
  - simpl in *. intros [->|H]%orb_true_iff; [reflexivity|].
    rewrite (IH H). apply orb_true_r.
Qed.

Lemma occurs_strip (c : ascii) (s : string) :
  occurs c (strip s) = true -> occurs c s = true.
Proof. intros H. apply occurs_lstrip, occurs_rstrip, H. Qed.

Lemma occurs_remove_same (q : ascii) (s : string) : occurs q (remove q s) = false.
Proof.
  induction s as [|a s IH]; simpl; [reflexivity|].
  destruct (Ascii.eqb a q) eqn:Ha; simpl; [exact IH|]. rewrite Ha. exact IH.
Qed.

Lemma occurs_remove (c q : ascii) (s : string) :
  occurs c (remove q s) = true -> occurs c s = true.
Proof.
  induction s as [|a s IH]; simpl; [auto|].
  destruct (Ascii.eqb a q); simpl.
  - intros H. rewrite (IH H). apply orb_true_r.
  - intros [->|H]%orb_true_iff; [reflexivity|].
    rewrite (IH H). apply orb_true_r.
Qed.

Lemma occurs_split (c : ascii) (s p : string) :
  In p (split c s) -> occurs c p = false.
Proof.
  revert p. induction s as [|a s IH]; simpl; intros p.
  - intros [<-|[]]. reflexivity.
  - destruct (Ascii.eqb a c) eqn:Ha.
    + intros [<-|H]; [reflexivity|]. apply IH, H.
    + destruct (split_cons c s) as (p0 & ps & Hs). rewrite Hs in *.
      intros [<-|H]; simpl.
      * rewrite Ha. apply IH. left. reflexivity.
      * apply IH. right. exact H.
Qed.

Lemma not_true_false (b : bool) : (b = true -> False) -> b = false.
Proof. destruct b; [intros H; destruct (H eq_refl)|reflexivity]. Qed.

(** A tag is a non-empty string without commas or quote characters. *)
Lemma tags_by_piece_clean (text tag : string) :
  In tag (tags_by_piece text) ->
  tag <> EmptyString
  /\ occurs COMMA tag = false
  /\ occurs SQUOTE tag = false
  /\ occurs DQUOTE tag = false.
Proof.
  unfold tags_by_piece. rewrite filter_In, in_map_iff.
  intros [(piece & <- & Hpiece) Hne].
  split; [intros Heq; rewrite Heq in Hne; discriminate|].
  unfold unquote. repeat split; apply not_true_false; intros H%occurs_strip.
  - apply occurs_remove, occurs_remove in H.
    rewrite (occurs_split _ _ _ Hpiece) in H. discriminate.
  - rewrite occurs_remove_same in H. discriminate.
  - apply occurs_remove in H. rewrite occurs_remove_same in H. discriminate.
Qed.

End Tags.

(** ** The rewriter *)

Section Rewriter.
Variable represent_item : scalar * yaml -> string.

Lemma concat_cons (x : string) (l : list string) :
  String.concat "" (x :: l) = x +:+ String.concat "" l.
Proof.
  destruct l as [|y l]; simpl; [|reflexivity].
  induction x as [|c x IH]; [reflexivity|].
  change (String c x +:+ "") with (String c (x +:+ "")). congruence.
Qed.

Lemma concat_snoc (l : list string) (x : string) :
  String.concat "" (l ++ [x]) = String.concat "" l +:+ x.
Proof.
  induction l as [|y l IH]; [reflexivity|].
  change ((y :: l) ++ [x]) with (y :: (l ++ [x])).
  rewrite !concat_cons, IH.
  induction y as [|c y IHy]; [reflexivity|].
  change (String c y +:+ String.concat "" l +:+ x)
    with (String c (y +:+ String.concat "" l +:+ x)).
  change ((String c y +:+ String.concat "" l) +:+ x)
    with (String c ((y +:+ String.concat "" l) +:+ x)).
  congruence.
Qed.

Lemma dict_set_new (k : string) (v : yaml) (d : dict) :
  Py.dict_contains k d = false -> Py.dict_set k v d = d ++ [(SStr k, v)].
Proof.
  unfold Py.dict_contains, Py.keys.
  induction d as [|[key x] d IH]; simpl; [reflexivity|].
  destruct (Py.key_is k key); [discriminate|].
  intros H. rewrite (IH H). reflexivity.
Qed.

(** C7: when the mapping does not hold the reserved key, the item
    assignment of [update_post] puts the key after the entries that were
    there, which keep their order and values; the text written for the
    mapping is the text of those entries, in that order, followed by the
    text of the reserved key, and it is what [update_post] writes between
    the delimiters. *)
Theorem reserved_key_goes_last (d : dict) (new_tags : list string)
  (fs : gmap string string) (path content : string) (off : nat) :
  Py.dict_contains GENERATED_TAGS_KEY d = false ->
  fs !! path = Some content ->
  let entry := (SStr GENERATED_TAGS_KEY, tag_list new_tags) in
  let text := String.concat "" (map represent_item d) +:+ represent_item entry in
  let new_content :=
    PyStr.lit "---\n" +:+ text +:+ PyStr.lit "---\n" +:+ PyStr.drop off content in
  Py.setitem GENERATED_TAGS_KEY (tag_list new_tags) (YMap d) = Return (d ++ [entry])
  /\ Py.keys (d ++ [entry]) = Py.keys d ++ [SStr GENERATED_TAGS_KEY]
  /\ dump represent_item (d ++ [entry]) = text
  /\ update_post represent_item path new_tags (YMap d) off (W fs [])
     = (Return tt, W (<[path := new_content]> fs) [EvRead path; EvWrite path new_content]).
Proof.
  intros Hnew Hfile. cbv zeta.
  assert (Hdump : dump represent_item (d ++ [(SStr GENERATED_TAGS_KEY, tag_list new_tags)])
                  = String.concat "" (map represent_item d)
                    +:+ represent_item (SStr GENERATED_TAGS_KEY, tag_list new_tags)).
  { unfold dump. destruct d as [|x d']; [reflexivity|].
    change ((x :: d') ++ [(SStr GENERATED_TAGS_KEY, tag_list new_tags)])
      with (x :: (d' ++ [(SStr GENERATED_TAGS_KEY, tag_list new_tags)])).
    cbv beta iota.
    change (x :: (d' ++ [(SStr GENERATED_TAGS_KEY, tag_list new_tags)]))
      with ((x :: d') ++ [(SStr GENERATED_TAGS_KEY, tag_list new_tags)]).
    rewrite map_app. apply concat_snoc. }
  split; [simpl; rewrite (dict_set_new _ _ _ Hnew); reflexivity|].
  split; [unfold Py.keys; rewrite map_app; reflexivity|].
  split; [exact Hdump|].
  unfold update_post, W. norm. simpl Py.setitem.
  rewrite (dict_set_new _ _ _ Hnew). cbv beta iota. rewrite Hfile, Hdump. reflexivity.
Qed.

End Rewriter.

(** ** The splitter *)

Section Splitter.
Import PyStr.

(** The block found by the search starts a line of the text: at the start
    of the text, or just after a line feed. *)
Lemma search_from_found (s : string) (bol : bool) (pos : nat) (m : Re.re_match) :
  Re.search_from bol pos s = Some m ->
  exists k,
    Re.match_start m = pos + k
    /\ Re.match_here (drop k s)
       = Some (Re.group1 m, Re.match_end m - Re.match_start m)
    /\ ((k = 0 /\ bol = true) \/ exists j, k = S j /\ String.get j s = Some LF).
Proof.
  revert bol pos. induction s as [|c s IH]; intros bol pos.
  - simpl. destruct bol; discriminate.
  - cbn [Re.search_from].
    destruct (if bol then Re.match_here (String c s) else None) as [[g n]|] eqn:Hhere.
    + intros [= <-]. exists 0. cbn [Re.match_start Re.match_end Re.group1 drop].
      destruct bol; [|discriminate].
      split; [lia|]. split; [|left; split; reflexivity].
      rewrite Hhere. do 2 f_equal. lia.
    + intros Hrest. destruct (IH _ _ Hrest) as (k & Hstart & Hmatch & Hline).
      exists (S k). split; [lia|]. split; [exact Hmatch|]. right.
      destruct Hline as [[-> Hc]|(j & -> & Hj)].
      * exists 0. split; [reflexivity|]. simpl.
        apply Ascii.eqb_eq in Hc. congruence.
      * exists (S j). split; [reflexivity|]. exact Hj.
Qed.

Lemma search_found (content : string) (m : Re.re_match) :
  Re.search content = Some m ->
  Re.match_here (drop (Re.match_start m) content)
  = Some (Re.group1 m, Re.match_end m - Re.match_start m)
  /\ (Re.match_start m = 0
      \/ exists j, Re.match_start m = S j /\ String.get j content = Some LF).
Proof.
  intros H. destruct (search_from_found _ _ _ _ H) as (k & Hstart & Hmatch & Hline).
  simpl in Hstart. subst k. split; [exact Hmatch|].
  destruct Hline as [[Hk _]|Hj]; [left; exact Hk|right; exact Hj].
Qed.

End Splitter.

(** ** The cycle on any document *)

Section Cycle.
Import PyStr.
Variable safe_load : string -> option yaml.
Variable represent_item : scalar * yaml -> string.

Lemma append_assoc (a b c : string) : (a +:+ b) +:+ c = a +:+ b +:+ c.
Proof.
  induction a as [|x a IH]; [reflexivity|].
  change (String x ((a +:+ b) +:+ c) = String x (a +:+ b +:+ c)). congruence.
Qed.

Lemma prefix_nil (s : string) : String.prefix "" s = true.
Proof. destruct s; reflexivity. Qed.

Lemma prefix_append (p a r : string) :
  String.length p <= String.length a ->
  String.prefix p (a +:+ r) = String.prefix p a.
Proof.
  revert a. induction p as [|x p IH]; intros a Hlen; [rewrite !prefix_nil; reflexivity|].
  destruct a as [|y a]; simpl in Hlen; [lia|].
  change (String y a +:+ r) with (String y (a +:+ r)). simpl.
  destruct (ascii_dec x y); [apply IH; lia|reflexivity].
Qed.

Lemma drop_length_append (a r : string) : drop (String.length a) (a +:+ r) = r.
Proof. induction a as [|c a IH]; [reflexivity|exact IH]. Qed.

Lemma lazy_group_consumed (s g : string) (n : nat) :
  Re.lazy_group s = Some (g, n) -> n = String.length g + 4 /\ n <= String.length s.
Proof.
  revert g n. induction s as [|c s IH]; intros g n.
  - simpl. discriminate.
  - cbn [Re.lazy_group].
    destruct (String.prefix Re.closing (String c s)) eqn:Hp.
    + intros [= <- <-]. split; [reflexivity|].
      apply String.prefix_correct in Hp.
      destruct s as [|c1 [|c2 [|c3 s]]]; simpl in *; try discriminate; lia.
    + destruct (Re.lazy_group s) as [[g' n']|]; [|discriminate].
      intros [= <- <-]. destruct (IH _ _ eq_refl). simpl. lia.
Qed.

(** A closing delimiter found in a text is found at the same place in any
    longer text. *)
Lemma lazy_group_append (a r g : string) (n : nat) :
  Re.lazy_group a = Some (g, n) -> Re.lazy_group (a +:+ r) = Some (g, n).
Proof.
  revert g n. induction a as [|c a IH]; intros g n H.
  - simpl in H. discriminate.
  - pose proof (lazy_group_consumed _ _ _ H) as [Hn Hlen].
    change (String c a +:+ r) with (String c (a +:+ r)).
    cbn [Re.lazy_group] in *.
    change (String c (a +:+ r)) with (String c a +:+ r) at 1.
    rewrite prefix_append by (change (String.length Re.closing) with 4; lia).
    destruct (String.prefix Re.closing (String c a)); [exact H|].
    destruct (Re.lazy_group a) as [[g' n']|]; [|discriminate].
    rewrite (IH _ _ eq_refl). exact H.
Qed.

(** A block at the very start of the text is the block found. *)
Lemma search_at_start (s g : string) (n : nat) :
  Re.match_here s = Some (g, n) ->
  Re.search s = Some {| Re.group1 := g; Re.match_start := 0; Re.match_end := n |}.
Proof.
  intros H. unfold Re.search. destruct s; cbn [Re.search_from]; rewrite H; reflexivity.
Qed.

Lemma match_here_opening (s : string) :
  Re.match_here (Re.opening +:+ s)
  = match Re.lazy_group s with
    | Some (g, n) => Some (g, 4 + n)
    | None => None
    end.
Proof.
  unfold Re.match_here.
  assert (Hp : String.prefix Re.opening (Re.opening +:+ s) = true).
  { change (Re.opening +:+ s) with (String "-" (String "-" (String "-" (String LF s)))).
    change Re.opening with (String "-" (String "-" (String "-" (String LF "")))).
    cbn [String.prefix]. repeat (destruct (ascii_dec _ _); [|congruence]).
    apply prefix_nil. }
  rewrite Hp. reflexivity.
Qed.

Lemma length_append (a b : string) :
  String.length (a +:+ b) = String.length a + String.length b.
Proof.
  induction a as [|c a IH]; [reflexivity|].
  change (String c a +:+ b) with (String c (a +:+ b)). simpl. rewrite IH. reflexivity.
Qed.

(** The text [update_post] writes, split again: when the serialized
    mapping ends with a line feed and holds no closing delimiter before
    its end, the block found is the serialized mapping and the body found
    is a line feed followed by the body that was written. *)
Lemma rewritten_splits (data : dict) (block body : string) :
  dump represent_item data = block +:+ String LF "" ->
  Re.lazy_group (block +:+ Re.closing) = Some (block, String.length block + 4) ->
  Re.search (rewritten represent_item data body)
  = Some {| Re.group1 := block; Re.match_start := 0;
            Re.match_end := 4 + (String.length block + 4) |}
  /\ drop (4 + (String.length block + 4)) (rewritten represent_item data body)
     = String LF body.
Proof.
  intros Hdump Hblock. unfold rewritten. rewrite Hdump.
  assert (Htext : lit "---\n" +:+ (block +:+ String LF "") +:+ lit "---\n" +:+ body
                  = Re.opening +:+ (block +:+ Re.closing) +:+ String LF body).
  { rewrite !append_assoc. reflexivity. }
  rewrite Htext. split.
  - apply search_at_start. rewrite match_here_opening.
    rewrite (lazy_group_append _ _ _ _ Hblock). reflexivity.
  - change (drop (4 + (String.length block + 4))
              (Re.opening +:+ (block +:+ Re.closing) +:+ String LF body))
      with (drop (String.length block + 4) ((block +:+ Re.closing) +:+ String LF body)).
    replace (String.length block + 4) with (String.length (block +:+ Re.closing))
      by (rewrite length_append; reflexivity).
    apply drop_length_append.
Qed.

(** On every document, the body read back after a cycle is the body that
    was read with a line feed before it. *)
Lemma cycle_body_grows (fs : gmap string string) (path : string)
  (new_tags : list string) (d : dict) (body text body' block : string)
  (off off' : nat) (m' : yaml) :
  cycle safe_load represent_item fs path new_tags
  = Some ((YMap d, body, off), text, (m', body', off')) ->
  dump represent_item (Py.dict_set GENERATED_TAGS_KEY (tag_list new_tags) d)
  = block +:+ String LF "" ->
  Re.lazy_group (block +:+ Re.closing) = Some (block, String.length block + 4) ->
  body' = String LF body /\ body' <> body /\ safe_load block = Some m'.
Proof.
  unfold cycle. rewrite split_file_eq.
  destruct (fs !! path) as [content|] eqn:Hfile; [|discriminate].
  destruct (Re.search content) as [m|]; [|discriminate].
  destruct (safe_load (Re.group1 m)) as [fm|]; [|discriminate].
  unfold update_post, W. norm.
  destruct fm as [| |d0]; simpl Py.setitem; cbv beta iota; try discriminate.
  rewrite Hfile. rewrite split_file_eq. rewrite lookup_insert_eq.
  fold (rewritten represent_item (Py.dict_set GENERATED_TAGS_KEY (tag_list new_tags) d0)
          (drop (Re.match_end m) content)).
  intros Hcycle Hdump Hblock.
  destruct (Re.search (rewritten _ _ _)) as [m2|] eqn:Hsearch; [|discriminate].
  destruct (safe_load (Re.group1 m2)) as [fm2|] eqn:Hload; [|discriminate].
  injection Hcycle as -> <- <- <- <- <- <-.
  destruct (rewritten_splits _ block (drop (Re.match_end m) content) Hdump Hblock)
    as [Hs Hd].
  rewrite Hs in Hsearch. injection Hsearch as <-. simpl in *.
  rewrite Hd. split; [reflexivity|]. split; [|exact Hload].
  clear. generalize (drop (Re.match_end m) content). intros s Heq.
  assert (Hlen : String.length (String LF s) = String.length s) by (rewrite Heq; reflexivity).
  simpl in Hlen. lia.
Qed.

End Cycle.

(** ** The scenarios, run *)

Section Scenarios.
Import PyStr Scenario.

Abbreviation load := YamlFragment.load.
Abbreviation item := YamlFragment.item.

(** Scenario A of the specification: the text written has one more line
    feed before the body than the text the specification expects. *)
Example scenario_A :
  files (snd (run_on (answering "go, rust, cli") (holding untagged))) !! post
  = Some (lit "---\ntitle: Hello\nllm_tags:\n- go\n- rust\n- cli\n---\n\nBody text.").
Proof. vm_compute. reflexivity. Qed.

(** Scenario B: tags present, no call, file untouched. *)
Example scenario_B :
  run_on (answering "go, rust, cli") (holding tagged)
  = (Exit 0, W (holding tagged) [P InfoStarting; EvRead post; P InfoAlreadyTagged]).
Proof. vm_compute. reflexivity. Qed.

(** Scenario D: the generator answers the empty string. *)
Example scenario_D :
  fst (run_on (answering "") (holding untagged)) = Exit 0
  /\ files (snd (run_on (answering "") (holding untagged))) = holding untagged.
Proof. vm_compute. split; reflexivity. Qed.

(** Two runs in a row: the second one stops at the gate. *)
Example second_run_stops_at_gate :
  let e := answering "go, rust, cli" in
  let w1 := snd (run_on e (holding untagged)) in
  let w2 := snd (run_on e (files w1)) in
  generator_calls (trace w1) = 1
  /\ generator_calls (trace w2) = 0
  /\ files w2 = files w1.
Proof. vm_compute. repeat split. Qed.

(** C1: on the document of scenario A, one cycle gives back the metadata
    with the tags, and a body that starts with one more line feed than the
    body that was read: the round trip of the specification fails. *)
Theorem cycle_adds_line_feed :
  cycle load item (holding untagged) post three_tags
  = Some ((YMap hello, lit "\nBody text.", 20),
          lit "---\ntitle: Hello\nllm_tags:\n- go\n- rust\n- cli\n---\n\nBody text.",
          (YMap (hello ++ [tags_entry]), lit "\n\nBody text.", 48))
  /\ ~ cycle_preserves load item (holding untagged) post three_tags.
Proof.
  assert (Hcycle :
    cycle load item (holding untagged) post three_tags
    = Some ((YMap hello, lit "\nBody text.", 20),
            lit "---\ntitle: Hello\nllm_tags:\n- go\n- rust\n- cli\n---\n\nBody text.",
            (YMap (hello ++ [tags_entry]), lit "\n\nBody text.", 48)))
    by (vm_compute; reflexivity).
  split; [exact Hcycle|].
  intros Hkeeps. destruct (Hkeeps _ _ _ _ _ _ _ Hcycle) as [Hbody _].
  vm_compute in Hbody. discriminate Hbody.
Qed.

(** C2: a document whose block starts on its second line is accepted: the
    search finds the block at offset 6, [get_post_content] returns it, and
    a run rewrites the file without its first line. *)
Theorem block_found_after_first_line :
  Re.match_here late_block = None
  /\ Re.search late_block
     = Some {| Re.group1 := "title: Hello"; Re.match_start := 6; Re.match_end := 26 |}
  /\ split_file load (holding late_block) post
     = Return (Some (YMap hello, lit "\nBody text.", 26))
  /\ ~ block_only_at_start load (holding late_block) post
  /\ files (snd (run_on (answering "go, rust, cli") (holding late_block))) !! post
     = Some (lit "---\ntitle: Hello\nllm_tags:\n- go\n- rust\n- cli\n---\n\nBody text.").
Proof.
  split; [vm_compute; reflexivity|].
  split; [vm_compute; reflexivity|].
  split; [vm_compute; reflexivity|].
  split; [|vm_compute; reflexivity].
  intros Honly.
  assert (Hnone : split_file load (holding late_block) post = Return None).
  { apply (Honly late_block); vm_compute; reflexivity. }
  vm_compute in Hnone. discriminate Hnone.
Qed.

(** What the fragment writes, it reads back. *)
Example fragment_round_trip :
  load (dump item hello) = Some (YMap hello)
  /\ load (dump item (hello ++ [tags_entry])) = Some (YMap (hello ++ [tags_entry])).
Proof. vm_compute. split; reflexivity. Qed.

(** The closing delimiter need not stand on a line of its own. *)
Example closing_delimiter_with_tail :
  Re.search (lit "---\ntitle: Hello\n---- not a delimiter")
  = Some {| Re.group1 := "title: Hello"; Re.match_start := 0; Re.match_end := 20 |}.
Proof. vm_compute. reflexivity. Qed.

(** C3, counterexample: with both variables set and a document that
    [get_post_content] splits, the run ends with code 1 when the body is
    empty. *)
Lemma exit_one_on_parsed_document :
  ~ exit_codes_as_specified load item (answering "go, rust, cli")
      (holding empty_body) post.
Proof.
  intros [Hone _].
  destruct Hone as [Hkey|Hparse]; [vm_compute; reflexivity| |].
  - vm_compute in Hkey. discriminate Hkey.
  - vm_compute in Hparse. discriminate Hparse.
Qed.

(** C4, counterexample: the run on a document with an empty body ends with
    code 1. *)
Lemma empty_body_is_fatal :
  ~ empty_body_is_legal load item (answering "go, rust, cli")
      (holding empty_body) post three_tags.
Proof. intros [Hcode _]. apply Hcode. vm_compute. reflexivity. Qed.

(** The cycle on the empty body, without the main block: the body read
    back is a line feed. *)
Example empty_body_cycle :
  cycle load item (holding empty_body) post three_tags
  = Some ((YMap hello, EmptyString, 20),
          lit "---\ntitle: Hello\nllm_tags:\n- go\n- rust\n- cli\n---\n",
          (YMap (hello ++ [tags_entry]), lit "\n", 48)).
Proof. vm_compute. reflexivity. Qed.

Lemma exit_code_one_iff_witness :
  let code := exit_code (fst (run_on (answering "") (holding untagged))) in
  (code = 0%Z \/ code = 1%Z)
  /\ (code = 1%Z <->
      no_post (Some post) = false
      /\ (no_key (Some "secret") = true \/ rejected load (holding untagged) post = true)).
Proof.
  apply (exit_code_one_iff load item (answering "") (holding untagged)).
  intros fm body off Hsplit. left. exists hello.
  vm_compute in Hsplit. injection Hsplit as <- _ _. reflexivity.
Defined.

Lemma reserved_key_goes_last_witness :
  let text := lit "title: Hello\nllm_tags:\n- go\n- rust\n- cli\n" in
  let new_content := lit "---\n" +:+ text +:+ lit "---\n" +:+ lit "\nBody text." in
  Py.setitem GENERATED_TAGS_KEY (tag_list three_tags) (YMap hello)
  = Return (hello ++ [tags_entry])
  /\ Py.keys (hello ++ [tags_entry]) = [SStr "title"; SStr GENERATED_TAGS_KEY]
  /\ dump item (hello ++ [tags_entry]) = text
  /\ update_post item post three_tags (YMap hello) 20 (W (holding untagged) [])
     = (Return tt, W (<[post := new_content]> (holding untagged))
                     [EvRead post; EvWrite post new_content]).
Proof.
  apply (reserved_key_goes_last item hello three_tags (holding untagged) post untagged 20).
  - reflexivity.
  - vm_compute. reflexivity.
Defined.

End Scenarios.

(** * Further properties *)

(** ** Where the splitter cuts *)

Section Cuts.
Import PyStr.

Lemma take_drop (n : nat) (s : string) : take n s +:+ drop n s = s.
Proof.
  revert s. induction n as [|n IH]; intros [|c s]; try reflexivity.
  change (String c (take n s +:+ drop n s) = String c s). rewrite IH. reflexivity.
Qed.

Lemma drop_drop (n k : nat) (s : string) : drop n (drop k s) = drop (k + n) s.
Proof.
  revert s. induction k as [|k IH]; intros s; [reflexivity|].
  destruct s as [|c s]; [destruct n; reflexivity|]. apply IH.
Qed.

Lemma length_take (n : nat) (s : string) : String.length (take n s) = Nat.min n (String.length s).
Proof.
  revert s. induction n as [|n IH]; intros [|c s]; try reflexivity.
  simpl. rewrite IH. reflexivity.
Qed.

Lemma prefix_decompose (p s : string) :
  String.prefix p s = true -> s = p +:+ drop (String.length p) s.
Proof.
  revert s. induction p as [|x p IH]; intros s; [reflexivity|].
  destruct s as [|y s]; simpl; [discriminate|].
  destruct (ascii_dec x y) as [->|]; [|discriminate].
  intros H. change (String y s = String y (p +:+ drop (String.length p) s)).
  rewrite <- (IH s H). reflexivity.
Qed.

Lemma lazy_group_decompose (s g : string) (n : nat) :
  Re.lazy_group s = Some (g, n) -> s = g +:+ Re.closing +:+ drop n s.
Proof.
  revert g n. induction s as [|c s IH]; intros g n.
  - simpl. discriminate.
  - cbn [Re.lazy_group].
    destruct (String.prefix Re.closing (String c s)) eqn:Hp.
    + intros [= <- <-]. apply (prefix_decompose _ _ Hp).
    + destruct (Re.lazy_group s) as [[g' n']|]; [|discriminate].
      intros [= <- <-].
      change (String c s = String c (g' +:+ Re.closing +:+ drop n' s)).
      rewrite <- (IH _ _ eq_refl). reflexivity.
Qed.

(** No closing delimiter starts inside the group. *)
Lemma lazy_group_shortest (s g : string) (n i : nat) :
  Re.lazy_group s = Some (g, n) -> i < String.length g ->
  String.prefix Re.closing (drop i s) = false.
Proof.
  revert g n i. induction s as [|c s IH]; intros g n i.
  - simpl. discriminate.
  - cbn [Re.lazy_group].
    destruct (String.prefix Re.closing (String c s)) eqn:Hp.
    + intros [= <- <-]. simpl. lia.
    + destruct (Re.lazy_group s) as [[g' n']|]; [|discriminate].
      intros [= <- <-]. destruct i as [|i]; [intros _; exact Hp|].
      simpl. intros Hi. apply (IH _ _ _ eq_refl). lia.
Qed.

Lemma match_here_decompose (s g : string) (n : nat) :
  Re.match_here s = Some (g, n) ->
  s = Re.opening +:+ g +:+ Re.closing +:+ drop n s /\ n = 4 + String.length g + 4.
Proof.
  unfold Re.match_here.
  destruct (String.prefix Re.opening s) eqn:Hp; [|discriminate].
  destruct (Re.lazy_group (drop 4 s)) as [[g' n']|] eqn:Hg; [|discriminate].
  intros [= <- <-].
  destruct (lazy_group_consumed _ _ _ Hg) as [Hn _].
  split; [|lia].
  rewrite (prefix_decompose _ _ Hp) at 1.
  change (String.length Re.opening) with 4.
  rewrite (lazy_group_decompose _ _ _ Hg) at 1.
  rewrite drop_drop. reflexivity.
Qed.

Lemma take_S_get (j : nat) (s : string) (c : ascii) :
  String.get j s = Some c -> take (S j) s = take j s +:+ String c "".
Proof.
  revert s. induction j as [|j IH]; intros [|a s]; simpl; try discriminate.
  - intros [= ->]. reflexivity.
  - intros H. change (String a (take (S j) s) = String a (take j s +:+ String c "")).
    rewrite (IH _ H). reflexivity.
Qed.

End Cuts.

Section SplitterProperties.
Import PyStr.
Variable safe_load : string -> option yaml.
Variable represent_item : scalar * yaml -> string.

(** X1: what [get_post_content] returns puts the file back together: the
    text is some lines, the opening delimiter line, the block that was
    loaded, a line feed and three dashes, and the body; the offset returned
    is the length of everything before the body. *)
Theorem split_reassembles (fs : gmap string string) (path content body : string)
  (fm : yaml) (off : nat) :
  fs !! path = Some content ->
  split_file safe_load fs path = Return (Some (fm, body, off)) ->
  exists before block,
    content = before +:+ lit "---\n" +:+ block +:+ lit "\n---" +:+ body
    /\ off = String.length before + 4 + String.length block + 4
    /\ off <= String.length content
    /\ safe_load block = Some fm
    /\ (before = EmptyString \/ exists lines, before = lines +:+ String LF "").
Proof.
  intros Hfile. rewrite split_file_eq, Hfile.
  destruct (Re.search content) as [m|] eqn:Hsearch; [|discriminate].
  destruct (safe_load (Re.group1 m)) as [fm'|] eqn:Hload; [|discriminate].
  intros [= -> <- <-].
  destruct (search_found _ _ Hsearch) as [Hhere Hline].
  destruct (match_here_decompose _ _ _ Hhere) as [Htext Hlen].
  rewrite drop_drop in Htext.
  assert (Hle : Re.match_start m <= String.length content).
  { destruct (Nat.le_gt_cases (Re.match_start m) (String.length content)) as [|Hgt]; [assumption|].
    exfalso. revert Hhere. clear -Hgt.
    assert (Hd : forall n s, String.length s <= n -> drop n s = EmptyString).
    { induction n as [|n IH]; intros [|c s]; simpl; try reflexivity; try lia.
      intros H. apply IH. lia. }
    rewrite Hd by lia. discriminate. }
  assert (Hend : Re.match_start m + (Re.match_end m - Re.match_start m) = Re.match_end m) by lia.
  rewrite Hend in Htext.
  exists (take (Re.match_start m) content), (Re.group1 m).
  assert (Hbefore : String.length (take (Re.match_start m) content) = Re.match_start m).
  { rewrite length_take. lia. }
  assert (Hwhole : content
                   = take (Re.match_start m) content +:+ lit "---\n" +:+ Re.group1 m
                     +:+ lit "\n---" +:+ drop (Re.match_end m) content).
  { rewrite <- (take_drop (Re.match_start m) content) at 1. rewrite Htext at 1. reflexivity. }
  split; [exact Hwhole|]. split; [lia|]. split.
  { assert (Hlen' : String.length content
                    = String.length (take (Re.match_start m) content) + (4 + (String.length (Re.group1 m)
                      + (4 + String.length (drop (Re.match_end m) content))))).
    { rewrite Hwhole at 1. rewrite !length_append. reflexivity. }
    lia. }
  split; [exact Hload|].
  destruct Hline as [->|(j & -> & Hj)]; [left; destruct content; reflexivity|].
  right. exists (take j content). apply take_S_get, Hj.
Qed.

(** The scan finds nothing exactly when no line start has the pattern. *)
Lemma search_from_none (s : string) (bol : bool) (pos : nat) :
  Re.search_from bol pos s = None <->
  (bol = true -> Re.match_here s = None)
  /\ (forall j, String.get j s = Some LF -> Re.match_here (drop (S j) s) = None).
Proof.
  revert bol pos. induction s as [|c s IH]; intros bol pos.
  - simpl. split; [|destruct bol; reflexivity].
    intros _. split; [reflexivity|]. intros j. destruct j; discriminate.
  - cbn [Re.search_from].
    destruct (if bol then Re.match_here (String c s) else None) as [[g n]|] eqn:Hhere.
    + split; [discriminate|]. intros [Hbol _].
      destruct bol; [|discriminate]. rewrite (Hbol eq_refl) in Hhere. discriminate.
    + rewrite IH. split.
      * intros [Hc Hrest]. split; [intros ->; exact Hhere|].
        intros [|j]; simpl.
        -- intros [= ->]. apply Hc. reflexivity.
        -- apply Hrest.
      * intros [_ Hall]. split.
        -- intros Hc%Ascii.eqb_eq. subst c. apply (Hall 0). reflexivity.
        -- intros j Hj. apply (Hall (S j)). exact Hj.
Qed.

(** X2: [re.search] finds no block exactly when the pattern matches at no
    line start of the text, so [get_post_content] answers with the None
    triple for those texts and no others. *)
Theorem search_none_iff (content : string) :
  Re.search content = None <->
  forall k, line_start k content -> Re.match_here (drop k content) = None.
Proof.
  unfold Re.search. rewrite search_from_none. unfold line_start. split.
  - intros [H0 Hj] k [->|(j & -> & Hget)]; [apply H0; reflexivity|apply Hj, Hget].
  - intros H. split.
    + intros _. apply (H 0). left. reflexivity.
    + intros j Hget. apply H. right. eauto.
Qed.

Lemma search_from_leftmost (s : string) (bol : bool) (pos : nat) (m : Re.re_match) :
  Re.search_from bol pos s = Some m ->
  (0 < Re.match_start m - pos -> bol = true -> Re.match_here s = None)
  /\ (forall j, S j < Re.match_start m - pos -> String.get j s = Some LF ->
                Re.match_here (drop (S j) s) = None).
Proof.
  revert bol pos. induction s as [|c s IH]; intros bol pos.
  - simpl. destruct bol; discriminate.
  - cbn [Re.search_from].
    destruct (if bol then Re.match_here (String c s) else None) as [[g n]|] eqn:Hhere.
    + intros [= <-]. simpl. split; intros; lia.
    + intros Hrest. destruct (IH _ _ Hrest) as [H0 Hj].
      destruct (search_from_found _ _ _ _ Hrest) as (k & Hk & _).
      split; [intros _ ->; exact Hhere|].
      intros [|j] Hlt; simpl.
      * intros [= ->]. apply H0; [lia|reflexivity].
      * intros Hget. apply Hj; [lia|exact Hget].
Qed.

(** X3: the block found is the first one: the pattern matches at the
    position found, which starts a line, and at no line start before it. *)
Theorem search_first_block (content : string) (m : Re.re_match) :
  Re.search content = Some m ->
  line_start (Re.match_start m) content
  /\ Re.match_here (drop (Re.match_start m) content)
     = Some (Re.group1 m, Re.match_end m - Re.match_start m)
  /\ forall k, k < Re.match_start m -> line_start k content ->
               Re.match_here (drop k content) = None.
Proof.
  intros H. destruct (search_found _ _ H) as [Hhere Hline].
  destruct (search_from_leftmost _ _ _ _ H) as [H0 Hj].
  split; [exact Hline|]. split; [exact Hhere|].
  intros k Hk [->|(j & -> & Hget)].
  - apply H0; [lia|reflexivity].
  - apply Hj; [lia|exact Hget].
Qed.

(** X4: the block ends at the first place, at or after its start, where a
    line feed is followed by three dashes: the closing delimiter stands
    right after the block, and no line feed followed by three dashes starts
    inside it.  (A first line of the block that starts with three dashes
    does not end it.) *)
Theorem block_ends_at_first_delimiter (content : string) (m : Re.re_match) :
  Re.search content = Some m ->
  String.prefix (lit "\n---")
    (drop (Re.match_start m + 4 + String.length (Re.group1 m)) content) = true
  /\ forall i, i < String.length (Re.group1 m) ->
       String.prefix (lit "\n---") (drop (Re.match_start m + 4 + i) content) = false.
Proof.
  intros H. destruct (search_found _ _ H) as [Hhere _].
  unfold Re.match_here in Hhere.
  destruct (String.prefix Re.opening (drop (Re.match_start m) content)); [|discriminate].
  destruct (Re.lazy_group (drop 4 (drop (Re.match_start m) content))) as [[g n]|] eqn:Hg;
    [|discriminate].
  injection Hhere as -> _. rewrite drop_drop in Hg. split.
  - pose proof (lazy_group_decompose _ _ _ Hg) as Htext.
    rewrite <- (drop_drop (String.length (Re.group1 m)) (Re.match_start m + 4) content).
    rewrite Htext, drop_length_append.
    generalize (drop n (drop (Re.match_start m + 4) content)). intros rest.
    change (lit "\n---") with Re.closing. clear.
    change (Re.closing +:+ rest) with (String LF (String "-" (String "-" (String "-" rest)))).
    change Re.closing with (String LF (String "-" (String "-" (String "-" EmptyString)))).
    cbn [String.prefix]. repeat (destruct (ascii_dec _ _); [|congruence]).
    destruct rest; reflexivity.
  - intros i Hi. pose proof (lazy_group_shortest _ _ _ i Hg Hi) as Hshort.
    rewrite drop_drop in Hshort. exact Hshort.
Qed.

Lemma contains_drop (sub s : string) (k : nat) :
  contains sub s = false -> String.prefix sub (drop k s) = false.
Proof.
  revert s. induction k as [|k IH]; intros s.
  - destruct s; simpl; intros H%orb_false_iff; apply H.
  - destruct s as [|c s]; simpl.
    + intros H%orb_false_iff. apply H.
    + intros [_ H]%orb_false_iff. apply IH, H.
Qed.

Lemma lazy_group_none (s : string) :
  (forall i, String.prefix Re.closing (drop i s) = false) -> Re.lazy_group s = None.
Proof.
  induction s as [|c s IH]; intros Hno.
  - reflexivity.
  - cbn [Re.lazy_group]. rewrite (Hno 0 : String.prefix Re.closing (String c s) = false).
    rewrite IH; [reflexivity|]. intros i. apply (Hno (S i)).
Qed.

(** X5: a file in which three dashes followed by a line feed occur
    nowhere, or a line feed followed by three dashes occurs nowhere, is not
    split: the run prints the front matter error, ends with code 1, calls
    no generator and leaves the file system as it was. *)
Theorem no_delimiter_no_run (e : env) (fs : gmap string string) (path content : string) :
  POST_TO_PROCESS e = Some path ->
  no_post (Some path) = false ->
  no_key (GEMINI_API_KEY e) = false ->
  fs !! path = Some content ->
  contains (lit "---\n") content = false \/ contains (lit "\n---") content = false ->
  split_file safe_load fs path = Return None
  /\ run safe_load represent_item e fs
     = (Exit 1, W fs [P InfoStarting; EvRead path; P ErrNoFrontMatter]).
Proof.
  intros Hpath Hpost Hkey Hfile Hnone.
  assert (Hsearch : Re.search content = None).
  { assert (Hhere : forall k, Re.match_here (drop k content) = None).
    { intros k. unfold Re.match_here. destruct Hnone as [Hopen|Hclose].
      - change Re.opening with (lit "---\n").
        rewrite (contains_drop _ _ k Hopen). reflexivity.
      - rewrite lazy_group_none; [destruct (String.prefix _ _); reflexivity|].
        intros i. rewrite !drop_drop. change Re.closing with (lit "\n---").
        apply contains_drop, Hclose. }
    unfold Re.search. apply search_from_none. split; intros; [apply (Hhere 0)|apply Hhere]. }
  split.
  - rewrite split_file_eq, Hfile, Hsearch. reflexivity.
  - rewrite run_eq. unfold run_paths. rewrite Hpath, Hpost, Hkey, Hfile, Hsearch. reflexivity.
Qed.

End SplitterProperties.

(** ** The tag list *)

Section TagProperties.
Import PyStr.

Lemma split_append_comma (a b : string) :
  split COMMA (a +:+ String COMMA b) = split COMMA a ++ split COMMA b.
Proof.
  induction a as [|c a IH].
  - reflexivity.
  - change (String c a +:+ String COMMA b) with (String c (a +:+ String COMMA b)).
    cbn [split]. rewrite IH.
    destruct (Ascii.eqb c COMMA); [reflexivity|].
    destruct (split_cons COMMA a) as (p & ps & ->). reflexivity.
Qed.

Lemma tags_by_piece_comma (a b : string) :
  tags_by_piece (a +:+ String COMMA b) = tags_by_piece a ++ tags_by_piece b.
Proof.
  unfold tags_by_piece. rewrite split_append_comma, map_app. apply List.filter_app.
Qed.

(** X6: the tags of two texts joined by a comma are the tags of the first
    followed by the tags of the second: the order of the response is kept
    and nothing is merged or removed across a comma. *)
Theorem tags_of_joined_texts (a b : string) :
  tags_of_text (clean_response (a +:+ String COMMA b))
  = tags_of_text (clean_response a) ++ tags_of_text (clean_response b).
Proof. rewrite !tags_of_text_by_piece. apply tags_by_piece_comma. Qed.

Lemma rstrip_cons (c : ascii) (s : string) :
  rstrip (String c s)
  = match rstrip s with
    | EmptyString => if isspace c then EmptyString else String c EmptyString
    | r => String c r
    end.
Proof. reflexivity. Qed.


Lemma rstrip_head (c : ascii) (s : string) :
  isspace c = false -> exists r, rstrip (String c s) = String c r.
Proof.
  intros Hc. cbn [rstrip]. destruct (rstrip s); [rewrite Hc|]; eauto.
Qed.

Lemma lstrip_head (s : string) :
  lstrip s = EmptyString \/ exists c r, lstrip s = String c r /\ isspace c = false.
Proof.
  induction s as [|c s IH]; [left; reflexivity|].
  simpl. destruct (isspace c) eqn:Hc; [exact IH|]. right. eauto.
Qed.


Lemma remove_absent (q : ascii) (s : string) : occurs q s = false -> remove q s = s.
Proof.
  induction s as [|c s IH]; [reflexivity|].
  simpl. intros [Hc Hs]%orb_false_iff. rewrite Hc, (IH Hs). reflexivity.
Qed.

Lemma split_absent (s : string) : occurs COMMA s = false -> split COMMA s = [s].
Proof.
  induction s as [|c s IH]; [reflexivity|].
  simpl. intros [Hc Hs]%orb_false_iff. rewrite Hc, (IH Hs). reflexivity.
Qed.

Lemma clean_tag_spec (t : string) :
  clean_tag t = true ->
  nonempty t = true /\ strip t = t /\ occurs COMMA t = false
  /\ occurs SQUOTE t = false /\ occurs DQUOTE t = false.
Proof.
  unfold clean_tag. rewrite !andb_true_iff, !negb_true_iff.
  intros [[[[Hne Hs%String.eqb_eq] Hc] Hq] Hd]. auto.
Qed.

Lemma tags_by_piece_clean_tag (t : string) : clean_tag t = true -> tags_by_piece t = [t].
Proof.
  intros (Hne & Hs & Hc & Hq & Hd)%clean_tag_spec.
  unfold tags_by_piece, unquote. rewrite (split_absent _ Hc). simpl.
  rewrite (remove_absent _ _ Hd), (remove_absent _ _ Hq), Hs, Hne. reflexivity.
Qed.

Lemma tags_by_piece_space (s : string) :
  tags_by_piece (String " " s) = tags_by_piece s.
Proof.
  rewrite <- !tags_of_text_by_piece. unfold clean_response.
  change (String " " s) with (String " " "" +:+ s).
  rewrite strip_app_space_l by reflexivity. reflexivity.
Qed.

Lemma concat_comma_cons (t : string) (l : list string) :
  l <> [] ->
  String.concat ", " (t :: l) = t +:+ String COMMA (String " " (String.concat ", " l)).
Proof. destruct l; [congruence|reflexivity]. Qed.

(** X7: clean tags joined by a comma and a blank are read back as they
    are: same tags, same order, duplicates kept. *)
Theorem joined_tags_read_back (tags : list string) :
  forallb clean_tag tags = true ->
  tags_of_text (clean_response (String.concat ", " tags)) = tags.
Proof.
  rewrite tags_of_text_by_piece.
  induction tags as [|t tags IH]; [reflexivity|].
  cbn [forallb]. intros [Ht Htags]%andb_true_iff.
  destruct tags as [|t' tags'].
  - apply tags_by_piece_clean_tag, Ht.
  - rewrite concat_comma_cons by discriminate.
    rewrite tags_by_piece_comma, tags_by_piece_space, (IH Htags).
    rewrite (tags_by_piece_clean_tag _ Ht). reflexivity.
Qed.


Lemma take_take (n : nat) (s : string) : take n (take n s) = take n s.
Proof.
  revert s. induction n as [|n IH]; intros [|c s]; try reflexivity.
  simpl. rewrite IH. reflexivity.
Qed.

(** X9: [call_llm_for_tags] looks at the first 2000 characters of the
    content only: the call on a content is the call on its first 2000
    characters (result, prompt sent and log lines), whatever follows
    them. *)
Theorem generator_sees_first_2000 (client : string -> reply) (content tail : string)
  (w : world) :
  call_llm_for_tags client content w = call_llm_for_tags client (take 2000 content) w
  /\ String.length (take 2000 content) <= 2000
  /\ (2000 <= String.length content ->
      call_llm_for_tags client (content +:+ tail) w = call_llm_for_tags client content w).
Proof.
  split; [unfold call_llm_for_tags; rewrite take_take; reflexivity|].
  split; [rewrite length_take; lia|].
  intros Hlen. unfold call_llm_for_tags.
  assert (Htake : forall n s, n <= String.length s -> take n (s +:+ tail) = take n s).
  { induction n as [|n IH]; intros [|c s] Hn; simpl in Hn; try reflexivity; try lia.
    change (String c s +:+ tail) with (String c (s +:+ tail)). simpl.
    rewrite IH by lia. reflexivity. }
  rewrite (Htake _ _ Hlen). reflexivity.
Qed.

(** X10: [call_llm_for_tags] always returns: whatever the client does, the
    outcome is a value, None when the client raises or gives no text; the
    file system is not touched, and the trace grows by the one call
    followed by log lines. *)
Theorem call_llm_for_tags_returns (client : string -> reply) (content : string) (w : world) :
  let out := call_llm_for_tags client content w in
  (exists tags, fst out = Return tags)
  /\ files (snd out) = files w
  /\ (exists logs,
        trace (snd out)
        = trace w ++ EvGenerate (PROMPT +:+ take 2000 content) :: map EvPrint logs)
  /\ ((forall text, client (PROMPT +:+ take 2000 content) <> ReplyText text) ->
      fst out = Return None).
Proof.
  cbv zeta. unfold call_llm_for_tags. norm.
  destruct (client _) as [text| | |]; [destruct (tags_of_text _)|..]; cbn [fst snd files trace].
  all: split; [eauto|]; split; [reflexivity|]; split.
  all: try (intros Hno; first [reflexivity | exfalso; apply (Hno text); reflexivity]).
  - exists [WarnNoTagsParsed]. rewrite <- app_assoc. reflexivity.
  - exists []. reflexivity.
  - exists [ErrUnexpected]. rewrite <- app_assoc. reflexivity.
  - exists [ErrApiCall]. rewrite <- app_assoc. reflexivity.
  - exists [ErrUnexpected]. rewrite <- app_assoc. reflexivity.
Qed.

End TagProperties.

(** ** The gate, the rewriter and the run *)

Section RunProperties.
Import PyStr.
Variable safe_load : string -> option yaml.
Variable represent_item : scalar * yaml -> string.

Lemma dict_get_set_same (k : string) (v : yaml) (d : dict) :
  Py.dict_get k (Py.dict_set k v d) = Some v.
Proof.
  induction d as [|[key x] d IH]; simpl.
  - rewrite String.eqb_refl. reflexivity.
  - destruct (Py.key_is k key) eqn:Hk; simpl; rewrite Hk; [reflexivity|exact IH].
Qed.

Lemma dict_get_set_other (k k' : string) (v : yaml) (d : dict) :
  k' <> k -> Py.dict_get k' (Py.dict_set k v d) = Py.dict_get k' d.
Proof.
  intros Hne. induction d as [|[key x] d IH]; simpl.
  - destruct (String.eqb_spec k' k); [contradiction|reflexivity].
  - destruct (Py.key_is k key) eqn:Hk; simpl; [|rewrite IH; reflexivity].
    destruct key as [| | |s|]; try discriminate Hk. simpl in *.
    apply String.eqb_eq in Hk. subst s.
    destruct (String.eqb_spec k' k); [contradiction|reflexivity].
Qed.

Lemma dict_set_keys_present (k : string) (v : yaml) (d : dict) :
  Py.dict_contains k d = true -> Py.keys (Py.dict_set k v d) = Py.keys d.
Proof.
  unfold Py.dict_contains, Py.keys.
  induction d as [|[key x] d IH]; simpl; [discriminate|].
  destruct (Py.key_is k key); simpl; [reflexivity|].
  intros H. rewrite (IH H). reflexivity.
Qed.

Lemma dict_set_truthy (k : string) (v : yaml) (d : dict) :
  Py.truthy (YMap (Py.dict_set k v d)) = true.
Proof. destruct d as [|[key x] d]; simpl; [reflexivity|]. destruct (Py.key_is k key); reflexivity. Qed.

(** X11: what [update_post] stores, the gate finds: after the item
    assignment the mapping holds the reserved key with the tag list, every
    other string key reads as before, and the gate answers that the tags are
    present. *)
Theorem stored_tags_pass_gate (d : dict) (new_tags : list string) :
  let data := Py.dict_set GENERATED_TAGS_KEY (tag_list new_tags) d in
  Py.setitem GENERATED_TAGS_KEY (tag_list new_tags) (YMap d) = Return data
  /\ Py.dict_get GENERATED_TAGS_KEY data = Some (tag_list new_tags)
  /\ (forall k, k <> GENERATED_TAGS_KEY -> Py.dict_get k data = Py.dict_get k d)
  /\ has_tags (YMap data) = Return true.
Proof.
  cbv zeta. split; [reflexivity|]. split; [apply dict_get_set_same|].
  split; [intros k Hk; apply dict_get_set_other, Hk|].
  rewrite (has_tags_present _ _ (dict_get_set_same _ _ _)). reflexivity.
Qed.

(** X12: when the mapping already holds the reserved key (with a null
    value, the only case in which the main block goes on to the rewriter),
    the item assignment replaces the value where the key stands: the keys
    and their order are unchanged, and so is the number of entries. *)
Theorem reserved_key_overwritten_in_place (d : dict) (new_tags : list string) :
  Py.dict_contains GENERATED_TAGS_KEY d = true ->
  let data := Py.dict_set GENERATED_TAGS_KEY (tag_list new_tags) d in
  Py.keys data = Py.keys d
  /\ length data = length d
  /\ Py.dict_get GENERATED_TAGS_KEY data = Some (tag_list new_tags).
Proof.
  intros Hin. cbv zeta.
  pose proof (dict_set_keys_present _ (tag_list new_tags) _ Hin) as Hkeys.
  split; [exact Hkeys|]. split; [|apply dict_get_set_same].
  apply (f_equal (@length scalar)) in Hkeys. unfold Py.keys in Hkeys.
  rewrite !length_map in Hkeys. exact Hkeys.
Qed.

(** X13: [update_post] touches the designated file only, and never creates
    it: every other path reads as before; when the file is missing or the
    front matter is not a mapping nothing is written and the call does not
    return; when it returns, the file holds the delimiter line, the
    serialized mapping, the delimiter line and the text of the old file from
    the offset on. *)
Theorem update_post_frame (fs : gmap string string) (path : string)
  (new_tags : list string) (fm : yaml) (off : nat) :
  let out := update_post represent_item path new_tags fm off (W fs []) in
  (forall p, p <> path -> files (snd out) !! p = fs !! p)
  /\ (fs !! path = None \/ (forall d, fm <> YMap d) ->
      files (snd out) = fs /\ fst out <> Return tt)
  /\ (fst out = Return tt ->
      exists d content,
        fm = YMap d /\ fs !! path = Some content
        /\ files (snd out) !! path
           = Some (rewritten represent_item
                     (Py.dict_set GENERATED_TAGS_KEY (tag_list new_tags) d)
                     (drop off content))).
Proof.
  cbv zeta. unfold update_post, W. norm.
  destruct fm as [a|l|d]; simpl Py.setitem; cbv beta iota.
  1-2: (split; [reflexivity|]; split; [split; [reflexivity|discriminate]|discriminate]).
  destruct (fs !! path) as [content|] eqn:Hfile; cbn [fst snd files].
  - split; [intros p Hp; apply lookup_insert_ne; congruence|].
    split.
    + intros [Hnone|Hnot]; [discriminate|]. exfalso. apply (Hnot d). reflexivity.
    + intros _. exists d, content. split; [reflexivity|]. split; [reflexivity|].
      apply lookup_insert_eq.
  - split; [reflexivity|]. split; [split; [reflexivity|discriminate]|discriminate].
Qed.

(** X14: the generator is called at most once, and only for a designated
    file, with the credential set, whose document was split into a
    non-empty front matter without tags and a non-empty body; the prompt
    is built from that body. *)
Theorem generator_called_only_when (e : env) (fs : gmap string string) :
  let w := snd (run safe_load represent_item e fs) in
  let path := match POST_TO_PROCESS e with Some f => f | None => EmptyString end in
  generator_calls (trace w) <= 1
  /\ (generator_calls (trace w) = 1 ->
      no_post (POST_TO_PROCESS e) = false
      /\ no_key (GEMINI_API_KEY e) = false
      /\ exists fm body off,
           split_file safe_load fs path = Return (Some (fm, body, off))
           /\ Py.truthy fm = true
           /\ nonempty body = true
           /\ has_tags fm = Return false
           /\ In (EvGenerate (PROMPT +:+ take 2000 body)) (trace w)).
Proof.
  cbv zeta. rewrite run_eq. unfold run_paths. rewrite split_file_eq.
  destruct (no_post (POST_TO_PROCESS e));
    [count_events; split; [lia|discriminate]|].
  destruct (no_key (GEMINI_API_KEY e));
    [count_events; split; [lia|discriminate]|].
  set (path := match POST_TO_PROCESS e with Some f => f | None => EmptyString end).
  destruct (fs !! path) as [content|];
    [|count_events; split; [lia|discriminate]].
  destruct (Re.search content) as [m|];
    [|count_events; split; [lia|discriminate]].
  destruct (safe_load (Re.group1 m)) as [fm|];
    [|count_events; split; [lia|discriminate]].
  unfold parsed_path. set (body := drop (Re.match_end m) content).
  destruct (negb (Py.truthy fm) || negb (nonempty body)) eqn:Hguard;
    [count_events; split; [lia|discriminate]|].
  apply orb_false_iff in Hguard. destruct Hguard as [Hfm%negb_false_iff Hbody%negb_false_iff].
  destruct (has_tags fm) as [[|]| |] eqn:Hgate;
    try (count_events; split; [lia|discriminate]).
  assert (Hin : forall r (w : world),
            generate_path represent_item e fs path fm body = (r, w) ->
            generator_calls (trace w) = 1
            /\ In (EvGenerate (PROMPT +:+ take 2000 body)) (trace w)).
  { unfold generate_path, prompt_of. intros r w.
    destruct (generate_content e _) as [text| | |];
      [destruct (tags_of_text _); [|destruct (Py.setitem _ _ fm)]|..];
      intros [= <- <-]; count_events; (split; [reflexivity|auto 8]). }
  destruct (generate_path represent_item e fs path fm body) as [r w] eqn:Hgen.
  destruct (Hin r w eq_refl) as [Hone Hev]. cbn [snd]. rewrite Hone.
  split; [lia|]. intros _. split; [reflexivity|]. split; [reflexivity|].
  exists fm, body, (Re.match_end m). auto.
Qed.

(** X15: a run comes to its end without [sys.exit] and without an
    exception exactly when it wrote the file; its last line is then the
    success line, with a non-empty tag list. *)
Theorem returns_iff_written (e : env) (fs : gmap string string) :
  let out := run safe_load represent_item e fs in
  (fst out = Return tt <-> file_writes (trace (snd out)) = 1)
  /\ (fst out = Return tt ->
      exists t ts, List.last (trace (snd out)) (EvRead EmptyString) = EvPrint (InfoSuccess (t :: ts))).
Proof.
  cbv zeta. rewrite run_eq. unfold run_paths.
  destruct (no_post (POST_TO_PROCESS e));
    [count_events; split; [split|]; discriminate|].
  destruct (no_key (GEMINI_API_KEY e));
    [count_events; split; [split|]; discriminate|].
  set (path := match POST_TO_PROCESS e with Some f => f | None => EmptyString end).
  destruct (fs !! path) as [content|];
    [|count_events; split; [split|]; discriminate].
  destruct (Re.search content) as [m|];
    [|count_events; split; [split|]; discriminate].
  destruct (safe_load (Re.group1 m)) as [fm|];
    [|count_events; split; [split|]; discriminate].
  unfold parsed_path.
  destruct (negb (Py.truthy fm) || negb (nonempty _));
    [count_events; split; [split|]; discriminate|].
  destruct (has_tags fm) as [[|]| |];
    try (count_events; split; [split|]; discriminate).
  unfold generate_path.
  destruct (generate_content e _) as [text| | |];
    try (count_events; split; [split|]; discriminate).
  destruct (tags_of_text (clean_response text)) as [|t ts];
    [count_events; split; [split|]; discriminate|].
  destruct (Py.setitem _ _ fm) as [data| |];
    try (count_events; split; [split|]; discriminate).
  count_events. split; [split; reflexivity|]. intros _. exists t, ts. reflexivity.
Qed.

(** X16: idempotence after a success.  When a run reaches the generator on
    a mapping without tags, gets tags, and the library reads back the
    mapping it then writes, the run returns after writing the file, and a
    second run on the result stops at the gate: it ends with code 0, makes
    no generator call and writes nothing. *)
Theorem rerun_after_success (e : env) (fs : gmap string string)
  (path body text t : string) (ts : list string) (d : dict) (off : nat) :
  POST_TO_PROCESS e = Some path ->
  no_post (Some path) = false ->
  no_key (GEMINI_API_KEY e) = false ->
  split_file safe_load fs path = Return (Some (YMap d, body, off)) ->
  Py.truthy (YMap d) = true ->
  nonempty body = true ->
  has_tags (YMap d) = Return false ->
  generate_content e (prompt_of body) = ReplyText text ->
  tags_of_text (clean_response text) = t :: ts ->
  reads_back safe_load represent_item
    (Py.dict_set GENERATED_TAGS_KEY (tag_list (t :: ts)) d) ->
  let data := Py.dict_set GENERATED_TAGS_KEY (tag_list (t :: ts)) d in
  let fs' := <[path := rewritten represent_item data body]> fs in
  fst (run safe_load represent_item e fs) = Return tt
  /\ files (snd (run safe_load represent_item e fs)) = fs'
  /\ run safe_load represent_item e fs'
     = (Exit 0, W fs' [P InfoStarting; EvRead path; P InfoAlreadyTagged]).
Proof.
  intros Hpath Hpost Hkey Hsplit Htruthy Hbody Hgate Hreply Htags (block & Hdump & Hblock & Hload).
  cbv zeta.
  assert (Hfirst : run safe_load represent_item e fs
                   = (Return tt,
                      W (<[path := rewritten represent_item
                                     (Py.dict_set GENERATED_TAGS_KEY (tag_list (t :: ts)) d) body]> fs)
                        ([P InfoStarting; EvRead path; P InfoCalling; EvGenerate (prompt_of body)]
                         ++ [EvRead path;
                             EvWrite path (rewritten represent_item
                                             (Py.dict_set GENERATED_TAGS_KEY (tag_list (t :: ts)) d) body);
                             P (InfoSuccess (t :: ts))]))).
  { rewrite run_eq. unfold run_paths. rewrite split_file_eq in Hsplit.
    rewrite Hpath, Hpost, Hkey.
    destruct (fs !! path) as [content|]; [|discriminate Hsplit].
    destruct (Re.search content) as [m|]; [|discriminate Hsplit].
    destruct (safe_load (Re.group1 m)) as [fm|]; [|discriminate Hsplit].
    injection Hsplit as -> -> _.
    unfold parsed_path. rewrite Htruthy, Hbody, Hgate. cbn [negb orb].
    unfold generate_path. rewrite Hreply, Htags. reflexivity. }
  rewrite Hfirst. split; [reflexivity|]. split; [reflexivity|].
  rewrite run_eq. unfold run_paths. rewrite Hpath, Hpost, Hkey, lookup_insert_eq.
  destruct (rewritten_splits represent_item _ block body Hdump Hblock) as [Hsearch Hdrop].
  rewrite Hsearch. cbn [Re.group1 Re.match_end]. rewrite Hload, Hdrop.
  unfold parsed_path. rewrite dict_set_truthy. cbn [negb orb nonempty].
  rewrite (has_tags_present _ _ (dict_get_set_same _ _ _)). reflexivity.
Qed.

(** X17: a front matter that is not a mapping stops the run late: when the
    gate lets it through and the generator answers with tags, the item
    assignment of [update_post] raises TypeError, after the one generator
    call; the process ends with code 1 and the file is as it was. *)
Theorem type_error_after_generation (e : env) (fs : gmap string string)
  (path body text t : string) (ts : list string) (fm : yaml) (off : nat) :
  POST_TO_PROCESS e = Some path ->
  no_post (Some path) = false ->
  no_key (GEMINI_API_KEY e) = false ->
  split_file safe_load fs path = Return (Some (fm, body, off)) ->
  (forall d, fm <> YMap d) ->
  Py.truthy fm = true ->
  nonempty body = true ->
  has_tags fm = Return false ->
  generate_content e (prompt_of body) = ReplyText text ->
  tags_of_text (clean_response text) = t :: ts ->
  run safe_load represent_item e fs
  = (Raise TypeError,
     W fs [P InfoStarting; EvRead path; P InfoCalling; EvGenerate (prompt_of body)])
  /\ exit_code (fst (run safe_load represent_item e fs)) = 1%Z.
Proof.
  intros Hpath Hpost Hkey Hsplit Hnot Htruthy Hbody Hgate Hreply Htags.
  assert (Hrun : run safe_load represent_item e fs
                 = (Raise TypeError,
                    W fs [P InfoStarting; EvRead path; P InfoCalling; EvGenerate (prompt_of body)])).
  { rewrite run_eq. unfold run_paths. rewrite split_file_eq in Hsplit.
    rewrite Hpath, Hpost, Hkey.
    destruct (fs !! path) as [content|]; [|discriminate Hsplit].
    destruct (Re.search content) as [m|]; [|discriminate Hsplit].
    destruct (safe_load (Re.group1 m)) as [fm'|]; [|discriminate Hsplit].
    injection Hsplit as -> -> _.
    unfold parsed_path. rewrite Htruthy, Hbody, Hgate. cbn [negb orb].
    unfold generate_path. rewrite Hreply, Htags.
    destruct fm as [a|l|d]; [reflexivity|reflexivity|].
    exfalso. apply (Hnot d). reflexivity. }
  rewrite Hrun. split; reflexivity.
Qed.

End RunProperties.

(** ** The further properties, on concrete files *)

Section FurtherCases.
Import PyStr Scenario Cases.

Abbreviation load := YamlFragment.load.
Abbreviation item := YamlFragment.item.

Lemma split_reassembles_witness :
  exists before block,
    untagged = before +:+ lit "---\n" +:+ block +:+ lit "\n---" +:+ lit "\nBody text."
    /\ 20 = String.length before + 4 + String.length block + 4
    /\ 20 <= String.length untagged
    /\ load block = Some (YMap hello)
    /\ (before = EmptyString \/ exists lines, before = lines +:+ String LF "").
Proof.
  apply (split_reassembles load (holding untagged) post untagged (lit "\nBody text.")
           (YMap hello) 20).
  - vm_compute. reflexivity.
  - vm_compute. reflexivity.
Defined.

Lemma search_first_block_witness :
  let m := {| Re.group1 := "title: Hello"; Re.match_start := 6; Re.match_end := 26 |} in
  line_start (Re.match_start m) late_block
  /\ Re.match_here (drop (Re.match_start m) late_block)
     = Some (Re.group1 m, Re.match_end m - Re.match_start m)
  /\ forall k, k < Re.match_start m -> line_start k late_block ->
               Re.match_here (drop k late_block) = None.
Proof.
  apply (search_first_block late_block). vm_compute. reflexivity.
Defined.

Lemma no_delimiter_no_run_witness :
  split_file load (holding no_dashes) post = Return None
  /\ run load item (answering "go, rust, cli") (holding no_dashes)
     = (Exit 1, W (holding no_dashes) [P InfoStarting; EvRead post; P ErrNoFrontMatter]).
Proof.
  apply (no_delimiter_no_run load item (answering "go, rust, cli") (holding no_dashes)
           post no_dashes).
  - reflexivity.
  - reflexivity.
  - reflexivity.
  - vm_compute. reflexivity.
  - left. vm_compute. reflexivity.
Defined.

Lemma joined_tags_read_back_witness :
  tags_of_text (clean_response (String.concat ", " three_tags)) = three_tags.
Proof. apply (joined_tags_read_back three_tags). vm_compute. reflexivity. Defined.

Lemma reserved_key_overwritten_in_place_witness :
  let data := Py.dict_set GENERATED_TAGS_KEY (tag_list three_tags) null_tags in
  Py.keys data = Py.keys null_tags
  /\ length data = length null_tags
  /\ Py.dict_get GENERATED_TAGS_KEY data = Some (tag_list three_tags).
Proof. apply (reserved_key_overwritten_in_place null_tags three_tags). reflexivity. Defined.

Lemma rerun_after_success_witness :
  let e := answering "go, rust, cli" in
  let data := Py.dict_set GENERATED_TAGS_KEY (tag_list three_tags) hello in
  let fs' := <[post := rewritten item data (lit "\nBody text.")]> (holding untagged) in
  fst (run load item e (holding untagged)) = Return tt
  /\ files (snd (run load item e (holding untagged))) = fs'
  /\ run load item e fs'
     = (Exit 0, W fs' [P InfoStarting; EvRead post; P InfoAlreadyTagged]).
Proof.
  apply (rerun_after_success load item (answering "go, rust, cli") (holding untagged)
           post (lit "\nBody text.") "go, rust, cli" "go" ["rust"; "cli"] hello 20).
  - reflexivity.
  - reflexivity.
  - reflexivity.
  - vm_compute. reflexivity.
  - reflexivity.
  - reflexivity.
  - reflexivity.
  - reflexivity.
  - vm_compute. reflexivity.
  - exists (lit "title: Hello\nllm_tags:\n- go\n- rust\n- cli").
    split; [vm_compute; reflexivity|]. split; vm_compute; reflexivity.
Defined.

Lemma type_error_after_generation_witness :
  run load_notes item (answering "go, rust, cli") (holding untagged)
  = (Raise TypeError,
     W (holding untagged)
       [P InfoStarting; EvRead post; P InfoCalling; EvGenerate (prompt_of (lit "\nBody text."))])
  /\ exit_code (fst (run load_notes item (answering "go, rust, cli") (holding untagged))) = 1%Z.
Proof.
  apply (type_error_after_generation load_notes item (answering "go, rust, cli")
           (holding untagged) post (lit "\nBody text.") "go, rust, cli" "go" ["rust"; "cli"]
           (Py.str "notes") 20).
  - reflexivity.
  - reflexivity.
  - reflexivity.
  - vm_compute. reflexivity.
  - discriminate.
  - reflexivity.
  - reflexivity.
  - reflexivity.
  - reflexivity.
  - vm_compute. reflexivity.
Defined.

Lemma cycle_body_grows_witness :
  lit "\n\nBody text." = String LF (lit "\nBody text.")
  /\ lit "\n\nBody text." <> lit "\nBody text."
  /\ load (lit "title: Hello\nllm_tags:\n- go\n- rust\n- cli")
     = Some (YMap (hello ++ [tags_entry])).
Proof.
  apply (cycle_body_grows load item (holding untagged) post three_tags hello
           (lit "\nBody text.")
           (lit "---\ntitle: Hello\nllm_tags:\n- go\n- rust\n- cli\n---\n\nBody text.")
           (lit "\n\nBody text.")
           (lit "title: Hello\nllm_tags:\n- go\n- rust\n- cli")
           20 48 (YMap (hello ++ [tags_entry]))).
  - vm_compute. reflexivity.
  - vm_compute. reflexivity.
  - vm_compute. reflexivity.
Defined.

Lemma block_ends_at_first_delimiter_witness :
  let m := {| Re.group1 := "title: Hello"; Re.match_start := 0; Re.match_end := 20 |} in
  String.prefix (lit "\n---")
    (drop (Re.match_start m + 4 + String.length (Re.group1 m)) untagged) = true
  /\ forall i, i < String.length (Re.group1 m) ->
       String.prefix (lit "\n---") (drop (Re.match_start m + 4 + i) untagged) = false.
Proof.
  apply (block_ends_at_first_delimiter untagged
           {| Re.group1 := "title: Hello"; Re.match_start := 0; Re.match_end := 20 |}).
  vm_compute. reflexivity.
Defined.

End FurtherCases.

(** ** The empty body *)

Section EmptyBody.
Import PyStr.
Variable safe_load : string -> option yaml.
Variable represent_item : scalar * yaml -> string.

Lemma prefix_self (p r : string) : String.prefix p (p +:+ r) = true.
Proof.
  induction p as [|c p IH]; [apply prefix_nil|].
  change (String c p +:+ r) with (String c (p +:+ r)). simpl.
  destruct (ascii_dec c c); [exact IH|congruence].
Qed.

Lemma drop_all (s : string) : drop (String.length s) s = EmptyString.
Proof. induction s as [|c s IH]; [reflexivity|exact IH]. Qed.

Lemma dash_is_no_line_feed : "-"%char <> LF.
Proof. unfold LF. discriminate. Qed.

(** Three dashes do not start a text whose start, up to a line feed, does
    not start with them. *)
Lemma dashes_not_across (b rest : string) :
  String.prefix "---" b = false ->
  String.prefix "---" (b +:+ String LF rest) = false.
Proof.
  pose proof dash_is_no_line_feed as Hdash.
  destruct b as [|b1 [|b2 [|b3 b]]];
    rewrite ?append_String, ?append_Empty; cbn [String.prefix];
    repeat match goal with
      | |- context [ascii_dec "-"%char ?x] =>
          destruct (ascii_dec "-"%char x);
          [try match goal with H : "-"%char = LF |- _ => contradiction (Hdash H) end
          | intros; reflexivity]
      end.
  rewrite (prefix_nil b). discriminate.
Qed.

(** In a block that holds no line feed followed by three dashes, the
    closing delimiter put after it is the first one. *)
Lemma lazy_group_block (block rest : string) :
  contains Re.closing block = false ->
  Re.lazy_group (block +:+ Re.closing +:+ rest) = Some (block, String.length block + 4).
Proof.
  induction block as [|c b IH].
  - intros _. change (EmptyString +:+ Re.closing +:+ rest) with (Re.closing +:+ rest).
    destruct rest; reflexivity.
  - cbn [contains]. intros [Hhere Hrest]%orb_false_iff.
    change (String c b +:+ Re.closing +:+ rest) with (String c (b +:+ Re.closing +:+ rest)).
    cbn [Re.lazy_group].
    assert (Hp : String.prefix Re.closing (String c (b +:+ Re.closing +:+ rest)) = false).
    { change Re.closing with (String LF "---") in Hhere |- *.
      rewrite append_String.
      cbn [String.prefix] in Hhere |- *. destruct (ascii_dec LF c); [|reflexivity].
      apply dashes_not_across, Hhere. }
    rewrite Hp, (IH Hrest). reflexivity.
Qed.

(** C4, as amended: a document made of the opening delimiter line, a block
    that holds no line feed followed by three dashes and that the library
    loads, and the closing delimiter with the end of the file right after
    it, is split without error, with the empty string as body; the main
    block then turns it away: the run ends with code 1 after reading the
    file once, calls no generator, writes nothing and leaves the file system
    as it was. *)
Theorem empty_body_rejected (e : env) (fs : gmap string string)
  (path block : string) (fm : yaml) :
  POST_TO_PROCESS e = Some path ->
  no_post (Some path) = false ->
  no_key (GEMINI_API_KEY e) = false ->
  fs !! path = Some (lit "---\n" +:+ block +:+ lit "\n---") ->
  contains (lit "\n---") block = false ->
  safe_load block = Some fm ->
  split_file safe_load fs path
  = Return (Some (fm, EmptyString, 4 + (String.length block + 4)))
  /\ run safe_load represent_item e fs = (Exit 1, W fs [P InfoStarting; EvRead path])
  /\ exit_code (fst (run safe_load represent_item e fs)) = 1%Z
  /\ generator_calls (trace (snd (run safe_load represent_item e fs))) = 0
  /\ file_writes (trace (snd (run safe_load represent_item e fs))) = 0
  /\ files (snd (run safe_load represent_item e fs)) = fs.
Proof.
  intros Hpath Hpost Hkey Hfile Hblock Hload.
  pose proof (lazy_group_block block EmptyString Hblock) as Hgroup.
  change (block +:+ Re.closing +:+ EmptyString) with (block +:+ Re.closing) in Hgroup.
  assert (Hsearch : Re.search (lit "---\n" +:+ block +:+ lit "\n---")
                    = Some {| Re.group1 := block; Re.match_start := 0;
                              Re.match_end := 4 + (String.length block + 4) |}).
  { apply search_at_start.
    change (lit "---\n" +:+ block +:+ lit "\n---") with (Re.opening +:+ (block +:+ Re.closing)).
    rewrite match_here_opening, Hgroup. reflexivity. }
  assert (Hbody : drop (4 + (String.length block + 4)) (lit "---\n" +:+ block +:+ lit "\n---")
                  = EmptyString).
  { change (drop (4 + (String.length block + 4)) (lit "---\n" +:+ block +:+ lit "\n---"))
      with (drop (String.length block + 4) (block +:+ Re.closing)).
    replace (String.length block + 4) with (String.length (block +:+ Re.closing))
      by (rewrite length_append; reflexivity).
    apply drop_all. }
  assert (Hsplit : split_file safe_load fs path
                   = Return (Some (fm, EmptyString, 4 + (String.length block + 4)))).
  { rewrite split_file_eq, Hfile, Hsearch. cbn [Re.group1 Re.match_end].
    rewrite Hload, Hbody. reflexivity. }
  assert (Hrun : run safe_load represent_item e fs = (Exit 1, W fs [P InfoStarting; EvRead path])).
  { rewrite run_eq. unfold run_paths. rewrite Hpath, Hpost, Hkey, Hfile, Hsearch.
    cbn [Re.group1 Re.match_end]. rewrite Hload, Hbody.
    unfold parsed_path. cbn [nonempty negb]. rewrite orb_true_r. reflexivity. }
  rewrite Hrun. repeat split. exact Hsplit.
Qed.

End EmptyBody.

(** ** Two runs in a row *)

Section TwoRuns.
Variable safe_load : string -> option yaml.
Variable represent_item : scalar * yaml -> string.




End TwoRuns.

(** ** The tags, trimmed *)

Section TrimmedTags.
Import PyStr.

Lemma rstrip_last (s : string) (z : ascii) :
  last_char (rstrip s) = Some z -> isspace z = false.
Proof.
  induction s as [|c s IH]; [discriminate|].
  rewrite rstrip_cons. destruct (rstrip s) as [|a r].
  - destruct (isspace c) eqn:Hc; [discriminate|]. intros [= <-]. exact Hc.
  - exact IH.
Qed.

Lemma strip_no_blank_at_ends (s : string) : blank_at_ends (strip s) = false.
Proof.
  unfold strip. destruct (lstrip_head s) as [->|(c & r & -> & Hc)]; [reflexivity|].
  destruct (rstrip_head c r Hc) as (r' & Hr).
  pose proof (rstrip_last (String c r)) as Hlast. rewrite Hr in *.
  unfold blank_at_ends. rewrite Hc.
  destruct (last_char (String c r')) as [z|]; [|reflexivity].
  apply (Hlast z). reflexivity.
Qed.

(** C6, as amended: for every response text, the tag list is the list read
    piece by piece with the quotes removed before the trim (split on
    commas, each piece freed of its quote characters, then trimmed, empty
    pieces dropped); every tag is a non-empty string with no whitespace at
    its start or end, no comma and no quote character; and
    [call_llm_for_tags] returns the list when it has a tag and None when it
    has none, never an empty list. *)
Theorem tag_list_of_response (text content : string) (w : world) :
  let tags := tags_of_text (clean_response text) in
  let returned := fst (call_llm_for_tags (fun _ => ReplyText text) content w) in
  tags = tags_by_piece text
  /\ Forall (fun tag => tag <> EmptyString
                        /\ blank_at_ends tag = false
                        /\ occurs COMMA tag = false
                        /\ occurs SQUOTE tag = false
                        /\ occurs DQUOTE tag = false) tags
  /\ returned = Return (match tags with [] => None | _ :: _ => Some tags end)
  /\ returned <> Return (Some []).
Proof.
  cbv zeta. rewrite tags_of_text_by_piece.
  split; [reflexivity|]. split.
  { apply List.Forall_forall. intros tag Hin.
    destruct (tags_by_piece_clean _ _ Hin) as (Hne & Hc & Hq & Hd).
    repeat split; try assumption.
    unfold tags_by_piece in Hin. rewrite filter_In, in_map_iff in Hin.
    destruct Hin as [(piece & <- & _) _]. apply strip_no_blank_at_ends. }
  unfold call_llm_for_tags. norm. rewrite tags_of_text_by_piece.
  destruct (tags_by_piece text); split; (reflexivity || discriminate).
Qed.

End TrimmedTags.

(** ** The amended statements, on concrete files *)

Section AmendedCases.
Import PyStr Scenario Cases.

Abbreviation load := YamlFragment.load.
Abbreviation item := YamlFragment.item.


(** The same when the client raises APIError. *)
Example api_error_calls_again :
  let e := {| POST_TO_PROCESS := Some post; GEMINI_API_KEY := Some "secret";
              generate_content := fun _ => ReplyAPIError |} in
  ~ two_runs_one_call load item e (holding untagged).
Proof.
  cbv zeta. unfold two_runs_one_call.
  match goal with |- ~ (?n <= 1) => assert (Hcalls : n = 2) by (vm_compute; reflexivity) end.
  rewrite Hcalls. lia.
Qed.

(** C6, counterexample: on a quoted tag with blanks inside the quotes, the
    code gives the bare tag, and the order of the specification's words
    (trim, then remove the quotes) gives the tag with its blanks. *)
Lemma quotes_go_before_the_trim :
  tags_of_text (clean_response "' a '") = ["a"]
  /\ tags_as_worded "' a '" = [" a "]
  /\ tags_of_text (clean_response "' a '") <> tags_as_worded "' a '".
Proof.
  split; [vm_compute; reflexivity|]. split; [vm_compute; reflexivity|].
  vm_compute. discriminate.
Qed.

(** A piece made of a quoted blank is no tag for the code. *)
Example quoted_blank_is_dropped :
  tags_of_text (clean_response (lit "go,' ',rust")) = ["go"; "rust"]
  /\ tags_as_worded (lit "go,' ',rust") = ["go"; " "; "rust"].
Proof. split; vm_compute; reflexivity. Qed.

(** A first line of the block that starts with three dashes does not end
    the block. *)
Example block_may_start_with_dashes :
  Re.search (lit "---\n---x\nfoo\n---\nbody")
  = Some {| Re.group1 := lit "---x\nfoo"; Re.match_start := 0; Re.match_end := 16 |}.
Proof. vm_compute. reflexivity. Qed.

Lemma empty_body_rejected_witness :
  split_file load (holding empty_body) post
  = Return (Some (YMap hello, EmptyString, 4 + (String.length "title: Hello" + 4)))
  /\ run load item (answering "go, rust, cli") (holding empty_body)
     = (Exit 1, W (holding empty_body) [P InfoStarting; EvRead post])
  /\ exit_code (fst (run load item (answering "go, rust, cli") (holding empty_body))) = 1%Z
  /\ generator_calls (trace (snd (run load item (answering "go, rust, cli") (holding empty_body)))) = 0
  /\ file_writes (trace (snd (run load item (answering "go, rust, cli") (holding empty_body)))) = 0
  /\ files (snd (run load item (answering "go, rust, cli") (holding empty_body)))
     = holding empty_body.
Proof.
  apply (empty_body_rejected load item (answering "go, rust, cli") (holding empty_body)
           post "title: Hello" (YMap hello)).
  - reflexivity.
  - reflexivity.
  - reflexivity.
  - vm_compute. reflexivity.
  - vm_compute. reflexivity.
  - vm_compute. reflexivity.
Defined.


End AmendedCases.
